(** * rust-daq Python clients: stream lifecycle, frame decoding, control calls

  A shallow embedding of
    - [clients/python/src/rust_daq/streaming.py]: [Frame], [ParameterChange],
      [FrameStream], [ParameterSubscription], [DeviceStateStream];
    - [clients/python/daq_client.py]: [DaqClient.upload_script],
      [DaqClient.stream_status], [DaqClient.stream_measurements].

  Python objects are records, mutation is explicit state passing, an
  exception is the [Raise] branch of [result], and [await it.__anext__()]
  is one step of the upstream iterator. *)

From stdpp Require Import gmap strings list fin_maps pretty.
From Stdlib Require Import ZArith Lia.
From Stdlib.Strings Require Import Byte.

Local Open Scope Z_scope.

(** ** The Python runtime the clients rely on *)

Module Py.

(** The exception classes that occur in the two client modules. *)
Inductive exn : Type :=
| StopIteration
| StopAsyncIteration
| KeyError (key : string)
| ValueError (msg : string)
| ImportError (msg : string)
| RuntimeError (msg : string)
| RpcError (details : string)     (* grpc.RpcError; [details] is e.details() *)
| Exception (msg : string).       (* anything else, e.g. from a user callback *)

Inductive result (A : Type) : Type :=
| Return (a : A)
| Raise (e : exn).
Global Arguments Return {A} a.
Global Arguments Raise {A} e.

Global Instance result_ret : MRet result := fun A a => Return a.
Global Instance result_bind : MBind result :=
  fun A B f m => match m with Return a => f a | Raise e => Raise e end.

(** [except StopAsyncIteration] matches on the class of the exception. *)
Definition is_StopAsyncIteration (e : exn) : bool :=
  match e with StopAsyncIteration => true | _ => false end.
Definition is_StopIteration (e : exn) : bool :=
  match e with StopIteration => true | _ => false end.

(** [d[key]] on a dictionary whose entry for [key] may be missing. *)
Definition getitem {A} (entry : option A) (key : string) : result A :=
  match entry with
  | Some v => Return v
  | None => Raise (KeyError key)
  end.

(** Truth value of an [Optional[int]]: [None] and [0] are falsy. *)
Definition truthy_int (o : option Z) : bool :=
  match o with
  | Some n => negb (n =? 0)
  | None => false
  end.

(** An object with [__anext__]: one call either returns an item or raises,
    and leaves the iterator in a new state. *)
Class AsyncIterator (I A : Type) := anext : I -> result A * I.

(** An object with [__next__] (the synchronous protocol). *)
Class Iterator (I A : Type) := next : I -> result A * I.

(** A scripted iterator: the outcomes of the successive calls, then
    exhaustion. *)
Definition script_step {A} (stop : exn) (l : list (result A))
  : result A * list (result A) :=
  match l with
  | [] => (Raise stop, [])
  | r :: l' => (r, l')
  end.

(** The first [n] calls of [step] all return an item: the items, and the
    iterator after them. *)
Fixpoint pull {I A} (step : I -> result A * I) (n : nat) (it : I)
  : option (list A * I) :=
  match n with
  | O => Some ([], it)
  | S n' =>
      match step it with
      | (Return a, it') =>
          match pull step n' it' with
          | Some (l, it'') => Some (a :: l, it'')
          | None => None
          end
      | (Raise _, _) => None
      end
  end.

(** *** Observable effects of one consumer task

    [user] is whatever state the callbacks and the loop body mutate;
    [trace] records, in program order, each callback invocation and each
    hand-over of an event to the consumer. *)
Inductive event (E : Type) : Type :=
| Invoked (e : E)      (* the per-event callback was called on [e] *)
| Delivered (e : E).   (* [__anext__] returned [e] to the consumer *)
Global Arguments Invoked {E} e.
Global Arguments Delivered {E} e.

Record world (U E : Type) : Type := World { user : U; trace : list (event E) }.
Global Arguments World {U E} user trace.
Global Arguments user {U E} w.
Global Arguments trace {U E} w.

(** A callback object [Callable[[E], None]]. [truthy] is its truth value
    [bool(cb)], which the tests [if self._on_frame:] and
    [if self._on_change:] read: [True] for a function, a method or any
    object without [__bool__] and [__len__], and whatever these return
    otherwise (an empty list-like collector with [__call__] is falsy); it
    is taken to be the same at every test. [__call__] is [cb(e)]: it may
    mutate the user's state and it may raise. *)
Record callback (U E : Type) : Type := Callback {
  truthy : bool;
  __call__ : E -> U -> result unit * U
}.
Global Arguments Callback {U E} truthy __call__.
Global Arguments truthy {U E} c.
Global Arguments __call__ {U E} c e u.

(** A function object as a callback. *)
Definition function {U E} (f : E -> U -> result unit * U) : callback U E :=
  Callback true f.

(** The call [cb(e)]. *)
Definition invoke {U E} (cb : callback U E) (e : E) (w : world U E)
  : result unit * world U E :=
  let '(r, u') := __call__ cb e (user w) in
  (r, World u' (trace w ++ [Invoked e])).

(** Leaving a coroutine ([async def]) by an exception: a [StopIteration]
    that would leave it is replaced by a [RuntimeError] (PEP 479); every
    other exception, [StopAsyncIteration] included, leaves it as it is. *)
Definition leave_coroutine (e : exn) : exn :=
  match e with
  | StopIteration => RuntimeError "coroutine raised StopIteration"
  | _ => e
  end.

(** The outcome of a coroutine whose body ends with [out]. *)
Definition coroutine {A St W} (out : result A * St * W) : result A * St * W :=
  let '(r, s, w) := out in
  (match r with
   | Return a => Return a
   | Raise e => Raise (leave_coroutine e)
   end, s, w).

(** The events handed to the consumer, and the callback invocations. *)
Definition delivered {E} (tr : list (event E)) : list E :=
  omap (fun ev => match ev with Delivered e => Some e | Invoked _ => None end) tr.
Definition invocations {E} (tr : list (event E)) : list E :=
  omap (fun ev => match ev with Invoked e => Some e | Delivered _ => None end) tr.

(** *** [async for e in stream: body(e)] *)
Inductive loop_end : Type :=
| Finished                 (* [StopAsyncIteration]: the loop ended normally *)
| Propagated (e : exn)     (* another exception left the loop *)
| StillRunning.            (* the loop has not ended within the given steps *)

Section AsyncFor.
Context {St E U : Type}.
Variable step : St -> world U E -> result E * St * world U E.
Variable body : E -> U -> U.

Definition deliver (e : E) (w : world U E) : world U E :=
  World (body e (user w)) (trace w ++ [Delivered e]).

Fixpoint async_for (fuel : nat) (s : St) (w : world U E)
  : loop_end * St * world U E :=
  match fuel with
  | O => (StillRunning, s, w)
  | S fuel' =>
      match step s w with
      | (Return e, s', w') => async_for fuel' s' (deliver e w')
      | (Raise ex, s', w') =>
          if is_StopAsyncIteration ex then (Finished, s', w')
          else (Propagated ex, s', w')
      end
  end.
End AsyncFor.

(** *** [for e in generator: ...]

    The consumer of a synchronous generator sees the yielded values and the
    way the iteration ends; [W] is the state the generator body acts on
    besides its own (here: standard output). *)
Section ForIn.
Context {St E W : Type}.
Variable step : St -> W -> result E * St * W.

Fixpoint for_in (fuel : nat) (s : St) (w : W)
  : list E * loop_end * St * W :=
  match fuel with
  | O => ([], StillRunning, s, w)
  | S fuel' =>
      match step s w with
      | (Return e, s', w') =>
          let '(l, r, s'', w'') := for_in fuel' s' w' in
          (e :: l, r, s'', w'')
      | (Raise ex, s', w') =>
          if is_StopIteration ex then ([], Finished, s', w')
          else ([], Propagated ex, s', w')
      end
  end.
End ForIn.

(** *** Driving a stream object by hand

    A consumer that holds a stream object can call [__anext__] and
    [__aexit__] on it in any order. *)
Inductive call : Type :=
| CallNext
| CallExit (exc : option exn).

Inductive observed (E : Type) : Type :=
| Got (r : result E)         (* what [__anext__] returned or raised *)
| Exited (suppress : bool).  (* what [__aexit__] returned *)
Global Arguments Got {E} r.
Global Arguments Exited {E} suppress.

Section Calls.
Context {St E W : Type}.
Variable op_next : St -> W -> result E * St * W.
Variable op_exit : St -> option exn -> bool * St.

Fixpoint run_calls (cs : list call) (s : St) (w : W)
  : list (observed E) * St * W :=
  match cs with
  | [] => ([], s, w)
  | CallNext :: cs' =>
      let '(r, s', w') := op_next s w in
      let '(obs, s'', w'') := run_calls cs' s' w' in
      (Got r :: obs, s'', w'')
  | CallExit exc :: cs' =>
      let '(b, s') := op_exit s exc in
      let '(obs, s'', w'') := run_calls cs' s' w in
      (Exited b :: obs, s'', w'')
  end.
End Calls.

(** A method that touches only its object, seen as a step on the object
    and the world. *)
Definition with_world {St E W} (f : St -> result E * St)
  : St -> W -> result E * St * W :=
  fun s w => let '(r, s') := f s in (r, s', w).

End Py.
Import Py.

Global Instance script_async {A} : AsyncIterator (list (result A)) A :=
  script_step StopAsyncIteration.
Global Instance script_sync {A} : Iterator (list (result A)) A :=
  script_step StopIteration.


(** ** numpy, as far as [Frame.to_numpy] uses it

    An array is a typed view of a byte buffer: [np.frombuffer] does not copy
    or decode, it attaches a dtype and a one-dimensional shape; [reshape]
    only replaces the shape (C order, the default). *)

Module np.

Inductive dtype : Type :=
| uint8                 (* np.uint8 *)
| uint16                (* np.uint16 *)
| uint16_be             (* np.dtype(">u2") *)
| float32.              (* np.float32 *)

Definition itemsize (d : dtype) : Z :=
  match d with
  | uint8 => 1
  | uint16 | uint16_be => 2
  | float32 => 4
  end.

Record ndarray : Type := mk {
  dtype_of : dtype;
  shape : list Z;
  buffer : list byte
}.

Definition ndim (a : ndarray) : nat := length (shape a).

(** [a.size]: the product of the dimensions. *)
Definition size (a : ndarray) : Z := fold_right Z.mul 1 (shape a).

(** [np.frombuffer(buf, dtype=d)]. *)
Definition frombuffer (buf : list byte) (d : dtype) : result ndarray :=
  let n := Z.of_nat (length buf) in
  if n mod itemsize d =? 0
  then Return (mk d [n / itemsize d] buf)
  else Raise (ValueError "buffer size must be a multiple of element size").

(** The sides of an array are C [intptr] values (64 bits here): a Python
    integer outside that range is not accepted as a side. *)
Definition intp_max : Z := 2 ^ 63 - 1.

Definition fits_intp (z : Z) : bool := (- 2 ^ 63 <=? z) && (z <=? intp_max).

(** The number of bytes that numpy reckons with when it creates an array:
    the item size times the sides that are not zero. *)
Definition array_bytes (item : Z) (dims : list Z) : Z :=
  fold_right (fun n acc => if n =? 0 then acc else n * acc) item dims.

(** The shape [(h, w)] as numpy prints it in an error message: a leading
    side to be inferred is left out, a later one is printed as
    [newaxis]. *)
Definition shape_to_string (h w : Z) : string :=
  if h <? 0 then
    if w <? 0 then "()" else "(" +:+ pretty w +:+ ")"
  else
    "(" +:+ pretty h +:+ "," +:+
    (if w <? 0 then "newaxis" else pretty w) +:+ ")".

Definition size_mismatch (n h w : Z) : exn :=
  ValueError ("cannot reshape array of size " +:+ pretty n +:+
              " into shape " +:+ shape_to_string h w).

(** The new view of [a] with the sides [dims], unless it is too big. *)
Definition view (a : ndarray) (dims : list Z) : result ndarray :=
  if array_bytes (itemsize (dtype_of a)) dims <=? intp_max
  then Return (mk (dtype_of a) dims (buffer a))
  else
    Raise (ValueError
             ("array is too big; `arr.size * arr.dtype.itemsize` is larger " +:+
              "than the maximum possible size.")).

(** [a.reshape((h, w))]. Each side must fit an [intptr]. A negative side
    stands for a dimension to be inferred from the size; at most one side
    may be negative. The product of the sides must be the size of [a]. *)
Definition reshape (a : ndarray) (h w : Z) : result ndarray :=
  let n := size a in
  if negb (fits_intp h && fits_intp w) then
    Raise (ValueError "Maximum allowed dimension exceeded")
  else if (h <? 0) && (w <? 0) then
    Raise (ValueError "can only specify one unknown dimension")
  else if h <? 0 then
    if (w =? 0) || negb (n mod w =? 0) then Raise (size_mismatch n h w)
    else view a [n / w; w]
  else if w <? 0 then
    if (h =? 0) || negb (n mod h =? 0) then Raise (size_mismatch n h w)
    else view a [h; n / h]
  else if h * w =? n then view a [h; w]
  else Raise (size_mismatch n h w).

(** The bytes of the element [a[r, c]] of a two-dimensional C-ordered array:
    rows are stored one after the other. *)
Definition item2 (a : ndarray) (r c : Z) : option (list byte) :=
  match shape a with
  | [h; w] =>
      if (0 <=? r) && (r <? h) && (0 <=? c) && (c <? w) then
        let sz := Z.to_nat (itemsize (dtype_of a)) in
        Some (take sz (drop (Z.to_nat (r * w + c) * sz)%nat (buffer a)))
      else None
  | _ => None
  end.

End np.

(** ** [Frame] *)

Module Frame.

Record t : Type := mk {
  device_id : string;
  frame_number : Z;
  width : Z;
  height : Z;
  timestamp_ns : Z;
  pixel_data : option (list byte);     (* bytes | None *)
  pixel_format : string
}.

(** The local [format_map] of [to_numpy]. *)
Definition format_map : gmap string np.dtype :=
  {[ "u8" := np.uint8;
     "u16_le" := np.uint16;
     "u16_be" := np.uint16_be;
     "f32_le" := np.float32 ]}.

(** [Frame.to_numpy]. [numpy_installed] says whether [import numpy]
    succeeds in the running interpreter. *)
Definition to_numpy (numpy_installed : bool) (self : t) : result np.ndarray :=
  if negb numpy_installed then
    Raise (ImportError "numpy is required for to_numpy()")
  else
    match pixel_data self with
    | None =>
        Raise (ValueError "No pixel data available (include_pixel_data=False?)")
    | Some data =>
        match format_map !! pixel_format self with
        | None =>
            Raise (ValueError ("Unknown pixel format: " +:+ pixel_format self))
        | Some dtype =>
            arr ← np.frombuffer data dtype;
            np.reshape arr (height self) (width self)
        end
    end.

(** The four recognized pixel format tags. *)
Definition recognized : list string := ["u8"; "u16_le"; "u16_be"; "f32_le"].

(** The four recognized tags and their bytes per sample, as the decoder
    table of the specification (section 4.6) lists them: [u8] 1 byte,
    [u16_le] and [u16_be] 2 bytes, [f32_le] 4 bytes. *)
Definition bytes_per_sample (fmt : string) : option Z :=
  if String.eqb fmt "u8" then Some 1
  else if String.eqb fmt "u16_le" then Some 2
  else if String.eqb fmt "u16_be" then Some 2
  else if String.eqb fmt "f32_le" then Some 4
  else None.

(** The dictionaries produced by [AsyncClient.stream_frames]: each of the
    seven entries read by [FrameStream.__anext__] is present or missing. *)
Record raw : Type := mk_raw {
  raw_device_id : option string;
  raw_frame_number : option Z;
  raw_width : option Z;
  raw_height : option Z;
  raw_timestamp_ns : option Z;
  raw_pixel_data : option (option (list byte));
  raw_pixel_format : option string
}.

(** The constructor call [Frame(device_id=raw["device_id"], ...)] of
    [FrameStream.__anext__]; the subscripts are evaluated in order. *)
Definition of_raw (r : raw) : result t :=
  d ← getitem (raw_device_id r) "device_id";
  n ← getitem (raw_frame_number r) "frame_number";
  w ← getitem (raw_width r) "width";
  h ← getitem (raw_height r) "height";
  ts ← getitem (raw_timestamp_ns r) "timestamp_ns";
  px ← getitem (raw_pixel_data r) "pixel_data";
  fmt ← getitem (raw_pixel_format r) "pixel_format";
  mret (mk d n w h ts px fmt).

(** The dictionary that carries exactly the fields of a frame. *)
Definition to_raw (f : t) : raw :=
  mk_raw (Some (device_id f)) (Some (frame_number f)) (Some (width f))
         (Some (height f)) (Some (timestamp_ns f)) (Some (pixel_data f))
         (Some (pixel_format f)).

End Frame.

(** ** [ParameterChange] *)

Module ParameterChange.

Record t : Type := mk {
  device_id : string;
  name : string;
  old_value : string;
  new_value : string;
  units : string
}.

(** The builtin [float] applied to a [str]: it returns a number or raises
    [ValueError]. [F] is the type of Python floats. *)
Class Float (F : Type) := float : string -> result F.

Definition old_as_float {F} `{!Float F} (self : t) : result F :=
  float (old_value self).

Definition new_as_float {F} `{!Float F} (self : t) : result F :=
  float (new_value self).

(** The dictionaries produced by [AsyncClient.stream_parameter_changes]. *)
Record raw : Type := mk_raw {
  raw_device_id : option string;
  raw_name : option string;
  raw_old_value : option string;
  raw_new_value : option string;
  raw_units : option string
}.

(** [ParameterChange(device_id=raw["device_id"], ...)] of
    [ParameterSubscription.__anext__]. *)
Definition of_raw (r : raw) : result t :=
  d ← getitem (raw_device_id r) "device_id";
  n ← getitem (raw_name r) "name";
  o ← getitem (raw_old_value r) "old_value";
  v ← getitem (raw_new_value r) "new_value";
  u ← getitem (raw_units r) "units";
  mret (mk d n o v u).

Definition to_raw (c : t) : raw :=
  mk_raw (Some (device_id c)) (Some (name c)) (Some (old_value c))
         (Some (new_value c)) (Some (units c)).

End ParameterChange.

(** ** [AsyncClient], as far as the stream classes use it

    The three async generator methods called by the [__aenter__] methods.
    Calling one creates the iterator; nothing is awaited until its first
    [__anext__]. *)

Module AsyncClient.

Class StreamFrames (C I : Type) :=
  stream_frames : C -> string -> bool -> I.

Class StreamParameterChanges (C I : Type) :=
  stream_parameter_changes : C -> option string -> option (list string) -> I.

Class StreamDeviceState (C I : Type) :=
  stream_device_state : C -> option (list string) -> Z -> bool -> I.

End AsyncClient.

(** ** [FrameStream] *)

Module FrameStream.

Section Class.
Context {C I U : Type}.
Context `{!AsyncClient.StreamFrames C I} `{!AsyncIterator I Frame.raw}.

Record t : Type := mk {
  _client : C;
  _device_id : string;
  _include_pixel_data : bool;
  _max_frames : option Z;
  _on_frame : option (callback U Frame.t);
  _frame_count : Z;
  _active : bool;
  _iterator : option I
}.

Definition set_frame_count (n : Z) (self : t) : t :=
  mk (_client self) (_device_id self) (_include_pixel_data self)
     (_max_frames self) (_on_frame self) n (_active self) (_iterator self).

Definition set_active (b : bool) (self : t) : t :=
  mk (_client self) (_device_id self) (_include_pixel_data self)
     (_max_frames self) (_on_frame self) (_frame_count self) b (_iterator self).

Definition set_iterator (it : option I) (self : t) : t :=
  mk (_client self) (_device_id self) (_include_pixel_data self)
     (_max_frames self) (_on_frame self) (_frame_count self) (_active self) it.

Definition __init__ (client : C) (device_id : string)
    (include_pixel_data : bool) (max_frames : option Z)
    (on_frame : option (callback U Frame.t)) : t :=
  mk client device_id include_pixel_data max_frames on_frame 0 false None.

Definition __aenter__ (self : t) : t :=
  let self := set_active true self in
  let self := set_frame_count 0 self in
  set_iterator
    (Some (AsyncClient.stream_frames (_client self) (_device_id self)
             (_include_pixel_data self)))
    self.

(** [exc] stands for the three exception arguments, which are not read. *)
Definition __aexit__ (self : t) (exc : option exn) : bool * t :=
  let self := set_active false self in
  let self := set_iterator None self in
  (false, self).

(** The same object constructed with another [max_frames]. *)
Definition with_max_frames (m : option Z) (self : t) : t :=
  mk (_client self) (_device_id self) (_include_pixel_data self)
     m (_on_frame self) (_frame_count self) (_active self) (_iterator self).

(** The cap does not stop the next [k] frames. *)
Definition room (k : Z) (self : t) : Prop :=
  match _max_frames self with
  | Some m => m = 0 \/ _frame_count self + k <= m
  | None => True
  end.

(** [self._max_frames and self._frame_count >= self._max_frames] *)
Definition cap_reached (self : t) : bool :=
  truthy_int (_max_frames self) &&
  match _max_frames self with
  | Some m => _frame_count self >=? m
  | None => false
  end.

Definition __anext__ (self : t) (w : world U Frame.t)
  : result Frame.t * t * world U Frame.t :=
  coroutine
    match _active self, _iterator self with
    | true, Some it =>
        if cap_reached self then (Raise StopAsyncIteration, self, w)
        else
          match anext it with
          | (Raise e, it') =>
              let self := set_iterator (Some it') self in
              if is_StopAsyncIteration e
              then (Raise e, set_active false self, w)
              else (Raise e, self, w)
          | (Return raw, it') =>
              let self := set_iterator (Some it') self in
              match Frame.of_raw raw with
              | Raise e => (Raise e, self, w)
              | Return frame =>
                  let self := set_frame_count (_frame_count self + 1) self in
                  match _on_frame self with
                  | Some cb =>
                      if truthy cb then        (* if self._on_frame: *)
                        match invoke cb frame w with
                        | (Return _, w') => (Return frame, self, w')
                        | (Raise e, w') => (Raise e, self, w')
                        end
                      else (Return frame, self, w)
                  | None => (Return frame, self, w)
                  end
              end
          end
    | _, _ => (Raise StopAsyncIteration, self, w)
    end.

Definition frame_count (self : t) : Z := _frame_count self.
Definition is_active (self : t) : bool := _active self.

(** The object after [k] more frames have been received, the upstream
    iterator then being [it]. *)
Definition advanced (k : Z) (it : I) (self : t) : t :=
  set_frame_count (_frame_count self + k) (set_iterator (Some it) self).

End Class.
Global Arguments t : clear implicits.

End FrameStream.

(** ** [ParameterSubscription] *)

Module ParameterSubscription.

Section Class.
Context {C I U : Type}.
Context `{!AsyncClient.StreamParameterChanges C I}.
Context `{!AsyncIterator I ParameterChange.raw}.

Record t : Type := mk {
  _client : C;
  _device_id : option string;
  _parameter_names : option (list string);
  _on_change : option (callback U ParameterChange.t);
  _change_count : Z;
  _active : bool;
  _iterator : option I
}.

Definition set_change_count (n : Z) (self : t) : t :=
  mk (_client self) (_device_id self) (_parameter_names self)
     (_on_change self) n (_active self) (_iterator self).

Definition set_active (b : bool) (self : t) : t :=
  mk (_client self) (_device_id self) (_parameter_names self)
     (_on_change self) (_change_count self) b (_iterator self).

Definition set_iterator (it : option I) (self : t) : t :=
  mk (_client self) (_device_id self) (_parameter_names self)
     (_on_change self) (_change_count self) (_active self) it.

Definition __init__ (client : C) (device_id : option string)
    (parameter_names : option (list string))
    (on_change : option (callback U ParameterChange.t)) : t :=
  mk client device_id parameter_names on_change 0 false None.

Definition __aenter__ (self : t) : t :=
  let self := set_active true self in
  let self := set_change_count 0 self in
  set_iterator
    (Some (AsyncClient.stream_parameter_changes (_client self)
             (_device_id self) (_parameter_names self)))
    self.

Definition __aexit__ (self : t) (exc : option exn) : bool * t :=
  let self := set_active false self in
  let self := set_iterator None self in
  (false, self).

Definition __anext__ (self : t) (w : world U ParameterChange.t)
  : result ParameterChange.t * t * world U ParameterChange.t :=
  coroutine
    match _active self, _iterator self with
    | true, Some it =>
        match anext it with
        | (Raise e, it') =>
            let self := set_iterator (Some it') self in
            if is_StopAsyncIteration e
            then (Raise e, set_active false self, w)
            else (Raise e, self, w)
        | (Return raw, it') =>
            let self := set_iterator (Some it') self in
            match ParameterChange.of_raw raw with
            | Raise e => (Raise e, self, w)
            | Return change =>
                let self := set_change_count (_change_count self + 1) self in
                match _on_change self with
                | Some cb =>
                    if truthy cb then        (* if self._on_change: *)
                      match invoke cb change w with
                      | (Return _, w') => (Return change, self, w')
                      | (Raise e, w') => (Raise e, self, w')
                      end
                    else (Return change, self, w)
                | None => (Return change, self, w)
                end
            end
        end
    | _, _ => (Raise StopAsyncIteration, self, w)
    end.

Definition change_count (self : t) : Z := _change_count self.
Definition is_active (self : t) : bool := _active self.

(** The object after [k] more changes have been received, the upstream
    iterator then being [it]. *)
Definition advanced (k : Z) (it : I) (self : t) : t :=
  set_change_count (_change_count self + k) (set_iterator (Some it) self).

End Class.
Global Arguments t : clear implicits.

End ParameterSubscription.

(** ** [DeviceStateStream]

    [Upd] is the type of the update dictionaries: the class never looks
    inside one. *)

Module DeviceStateStream.

Section Class.
Context {C I Upd : Type}.
Context `{!AsyncClient.StreamDeviceState C I} `{!AsyncIterator I Upd}.

Record t : Type := mk {
  _client : C;
  _device_ids : option (list string);
  _max_rate_hz : Z;
  _include_snapshot : bool;
  _update_count : Z;
  _active : bool;
  _iterator : option I
}.

Definition set_update_count (n : Z) (self : t) : t :=
  mk (_client self) (_device_ids self) (_max_rate_hz self)
     (_include_snapshot self) n (_active self) (_iterator self).

Definition set_active (b : bool) (self : t) : t :=
  mk (_client self) (_device_ids self) (_max_rate_hz self)
     (_include_snapshot self) (_update_count self) b (_iterator self).

Definition set_iterator (it : option I) (self : t) : t :=
  mk (_client self) (_device_ids self) (_max_rate_hz self)
     (_include_snapshot self) (_update_count self) (_active self) it.

Definition __init__ (client : C) (device_ids : option (list string))
    (max_rate_hz : Z) (include_snapshot : bool) : t :=
  mk client device_ids max_rate_hz include_snapshot 0 false None.

Definition __aenter__ (self : t) : t :=
  let self := set_active true self in
  let self := set_update_count 0 self in
  set_iterator
    (Some (AsyncClient.stream_device_state (_client self) (_device_ids self)
             (_max_rate_hz self) (_include_snapshot self)))
    self.

Definition __aexit__ (self : t) (exc : option exn) : bool * t :=
  let self := set_active false self in
  let self := set_iterator None self in
  (false, self).

Definition __anext__ (self : t) : result Upd * t :=
  let '(r, self, _) :=
    coroutine
      match _active self, _iterator self with
      | true, Some it =>
          match anext it with
          | (Raise e, it') =>
              let self := set_iterator (Some it') self in
              if is_StopAsyncIteration e
              then (Raise e, set_active false self, tt)
              else (Raise e, self, tt)
          | (Return update, it') =>
              let self := set_iterator (Some it') self in
              let self := set_update_count (_update_count self + 1) self in
              (Return update, self, tt)
          end
      | _, _ => (Raise StopAsyncIteration, self, tt)
      end in
  (r, self).

Definition update_count (self : t) : Z := _update_count self.
Definition is_active (self : t) : bool := _active self.

(** The object after [k] more updates have been received, the upstream
    iterator then being [it]. *)
Definition advanced (k : Z) (it : I) (self : t) : t :=
  set_update_count (_update_count self + k) (set_iterator (Some it) self).

(** The same object constructed with another [max_rate_hz]. *)
Definition with_max_rate_hz (hz : Z) (self : t) : t :=
  mk (_client self) (_device_ids self) hz (_include_snapshot self)
     (_update_count self) (_active self) (_iterator self).

End Class.
Global Arguments t : clear implicits.

End DeviceStateStream.

(** ** The generated protobuf module [daq_pb2] and the gRPC stub *)

Module daq_pb2.

(** A Python [float] (IEEE binary64), carried but never computed on: it is
    represented by its bit pattern. *)
Inductive float64 : Type := F64 (bits : Z).

Record UploadRequest : Type := mkUploadRequest {
  script_content : string;
  name : string
}.

(** Modelled from the spec: the generated message class is not part of the
    sources; section 6 gives
    [UploadScript(content, name) -> {success: bool, script_id: string,
    error_message: string}]. *)
Record UploadResponse : Type := mkUploadResponse {
  success : bool;
  script_id : string;
  error_message : string
}.

Record StatusRequest : Type := mkStatusRequest { }.

(** Modelled from the spec: the generated message class is not part of the
    sources; the fields are those read by [stream_status] (section 3,
    StatusSnapshot: state, memory, live values name->float, timestamp). *)
Record SystemStatus : Type := mkSystemStatus {
  current_state : Z;
  current_memory_usage_mb : float64;
  live_values : gmap string float64;
  status_timestamp_ns : Z
}.

Record MeasurementRequest : Type := mkMeasurementRequest {
  request_instrument : string
}.

(** Modelled from the spec: the generated message class is not part of the
    sources; section 3 gives MeasurementSample as [instrument],
    [timestamp_ns] and a payload [variant{scalar: float64 | image: bytes |
    none}] with exactly one variant active at a time (a protobuf oneof). *)
Inductive payload : Type :=
| NotSet
| Scalar (x : float64)
| Image (b : list byte).

Record DataPoint : Type := mkDataPoint {
  instrument : string;
  timestamp_ns : Z;
  value : payload
}.

(** [data_point.HasField(field)] for the two members of the oneof. *)
Definition HasField (d : DataPoint) (field : string) : bool :=
  match value d with
  | Scalar _ => String.eqb field "scalar"
  | Image _ => String.eqb field "image"
  | NotSet => false
  end.

(** Reading a member of the oneof that is not set gives the default. *)
Definition scalar (d : DataPoint) : float64 :=
  match value d with Scalar x => x | _ => F64 0 end.
Definition image (d : DataPoint) : list byte :=
  match value d with Image b => b | _ => [] end.

End daq_pb2.

Module daq_pb2_grpc.

(** [ControlServiceStub]: a unary call returns a response or raises and
    leaves the stub in a new state; a server-streaming call returns the
    response iterator. *)
Class ControlServiceStub (S IS IM : Type) := {
  UploadScript :
    S -> daq_pb2.UploadRequest -> result daq_pb2.UploadResponse * S;
  StreamStatus : S -> daq_pb2.StatusRequest -> IS;
  StreamMeasurements : S -> daq_pb2.MeasurementRequest -> IM
}.

End daq_pb2_grpc.

(** ** [DaqClient] *)

Module DaqClient.
Import daq_pb2 daq_pb2_grpc.

(** The values stored in the dictionaries that the client yields. *)
Inductive pyvalue : Type :=
| VNone
| VInt (z : Z)
| VFloat (x : float64)
| VStr (s : string)
| VBytes (b : list byte)
| VDict (d : gmap string float64).

(** The unary requests sent over the channel, in order. *)
Inductive rpc : Type :=
| CallUploadScript (req : UploadRequest).

Section Class.
Context {S IS IM : Type}.
Context `{!ControlServiceStub S IS IM}.
Context `{!Iterator IS SystemStatus} `{!Iterator IM DataPoint}.

(** [sent] is not a field of the Python object: it records the calls made
    through [self.stub]. *)
Record t : Type := mk {
  address : string;
  stub : S;
  sent : list rpc
}.

Definition upload_script (self : t) (script_content : string) (name : string)
  : result string * t :=
  let request := mkUploadRequest script_content name in
  let '(r, stub') := UploadScript (stub self) request in
  let self := mk (address self) stub' (sent self ++ [CallUploadScript request]) in
  match r with
  | Raise (RpcError details) =>
      (Raise (RuntimeError ("gRPC error during upload: " +:+ details)), self)
  | Raise e => (Raise e, self)
  | Return response =>
      if negb (success response) then
        (Raise (RuntimeError ("Upload failed: " +:+ error_message response)),
         self)
      else (Return (script_id response), self)
  end.

(** A generator object: not started, suspended at its [yield] inside the
    loop over the response iterator [it], or finished. *)
Inductive generator (I : Type) : Type :=
| Created (self : t)
| Suspended (it : I)
| Done.
Global Arguments Created {I} self.
Global Arguments Suspended {I} it.
Global Arguments Done {I}.

(** The dictionary built by the [yield] of [stream_status]. *)
Definition status_dict (status : SystemStatus) : gmap string pyvalue :=
  {[ "state" := VInt (current_state status);
     "memory_mb" := VFloat (current_memory_usage_mb status);
     "live_values" := VDict (live_values status);
     "timestamp" := VInt (status_timestamp_ns status) ]}.

(** One round of the [for] loop of [stream_status], inside its [try]. *)
Definition stream_status_loop (it : IS) (stdout : list string)
  : result (gmap string pyvalue) * generator IS * list string :=
  match next it with
  | (Return status, it') => (Return (status_dict status), Suspended it', stdout)
  | (Raise e, _) =>
      if is_StopIteration e then (Raise StopIteration, Done, stdout)
      else
        match e with
        | RpcError details =>
            (Raise StopIteration, Done,
             stdout ++ ["Stream error: " +:+ details])
        | _ => (Raise e, Done, stdout)
        end
  end.

(** [next(g)] for a generator [g = self.stream_status()]. *)
Definition stream_status_next (g : generator IS) (stdout : list string)
  : result (gmap string pyvalue) * generator IS * list string :=
  match g with
  | Created self =>
      let request := mkStatusRequest in
      stream_status_loop (StreamStatus (stub self) request) stdout
  | Suspended it => stream_status_loop it stdout
  | Done => (Raise StopIteration, Done, stdout)
  end.

Definition stream_status (self : t) : generator IS := Created self.

(** The dictionary built for one data point by [stream_measurements]. *)
Definition measurement_dict (data_point : DataPoint) : gmap string pyvalue :=
  let result : gmap string pyvalue :=
    {[ "instrument" := VStr (instrument data_point);
       "timestamp" := VInt (timestamp_ns data_point) ]} in
  if HasField data_point "scalar" then
    let result := <["value" := VFloat (scalar data_point)]> result in
    <["image" := VNone]> result
  else if HasField data_point "image" then
    let result := <["value" := VNone]> result in
    <["image" := VBytes (image data_point)]> result
  else
    let result := <["value" := VNone]> result in
    <["image" := VNone]> result.

Definition stream_measurements_loop (it : IM) (stdout : list string)
  : result (gmap string pyvalue) * generator IM * list string :=
  match next it with
  | (Return data_point, it') =>
      (Return (measurement_dict data_point), Suspended it', stdout)
  | (Raise e, _) =>
      if is_StopIteration e then (Raise StopIteration, Done, stdout)
      else
        match e with
        | RpcError details =>
            (Raise StopIteration, Done,
             stdout ++ ["Measurement stream error: " +:+ details])
        | _ => (Raise e, Done, stdout)
        end
  end.

(** [next(g)] for [g = self.stream_measurements(instrument)]; the argument
    is kept by the generator until its body starts. *)
Definition stream_measurements_next (instrument : string)
    (g : generator IM) (stdout : list string)
  : result (gmap string pyvalue) * generator IM * list string :=
  match g with
  | Created self =>
      let request := mkMeasurementRequest instrument in
      stream_measurements_loop (StreamMeasurements (stub self) request) stdout
  | Suspended it => stream_measurements_loop it stdout
  | Done => (Raise StopIteration, Done, stdout)
  end.

Definition stream_measurements (self : t) (instrument : string)
  : generator IM := Created self.

(** The line that the [except grpc.RpcError] clause prints when the
    response iterator raises [e]; nothing for another [e]. *)
Definition logged (prefix : string) (e : exn) : list string :=
  match e with
  | RpcError details => [prefix +:+ details]
  | _ => []
  end.

(** What the code that iterates over a generator gets from it: the values
    and the way the iteration ended. *)
Definition caller_view {E St W} (run : list E * loop_end * St * W)
  : list E * loop_end :=
  let '(l, r, _, _) := run in (l, r).

Definition printed {E St W} (run : list E * loop_end * St * W) : W :=
  let '(_, _, _, w) := run in w.

End Class.
Global Arguments t : clear implicits.

End DaqClient.

(** ** Vocabulary of the statements *)

(** A callback that returns normally on every event it is called on (or
    no callback, or one that is never called because it is falsy). *)
Definition quiet {U E} (o : option (callback U E)) : Prop :=
  forall cb, o = Some cb -> truthy cb = true ->
  forall e u, (__call__ cb e u).1 = Return tt.

(** The trace of a loop that receives the events [es] one after the other:
    with a callback whose truth value is true, each event is first passed
    to it and then delivered. *)
Definition paired_trace {U E} (o : option (callback U E)) (es : list E)
  : list (event E) :=
  flat_map (fun e =>
    match o with
    | Some cb => if truthy cb then [Invoked e; Delivered e] else [Delivered e]
    | None => [Delivered e]
    end) es.

(** What one [__anext__] that receives [e] adds to the trace: the call of
    the callback, if there is one and its truth value is true. *)
Definition invoked_on {U E} (o : option (callback U E)) (e : E)
  : list (event E) :=
  match o with
  | Some cb => if truthy cb then [Invoked e] else []
  | None => []
  end.

(** The raw dictionaries [raws] are complete and give the events [es]. *)
Definition decoded {R E} (of_raw : R -> result E) (raws : list R)
    (es : list E) : Prop :=
  Forall2 (fun r e => of_raw r = Return e) raws es.

(** What a closed stream object answers to a call. *)
Definition closed_answer {E} (c : call) : observed E :=
  match c with
  | CallNext => Got (Raise StopAsyncIteration)
  | CallExit _ => Exited false
  end.

(** ** Scripted collaborators, for the worked examples *)

Module Samples.

(** A client whose three streams replay fixed scripts. *)
Record ScriptedClient : Type := mkClient {
  frames : list (result Frame.raw);
  changes : list (result ParameterChange.raw);
  states : list (result string)
}.

Global Instance scripted_frames
  : AsyncClient.StreamFrames ScriptedClient (list (result Frame.raw)) :=
  fun c _ _ => frames c.
Global Instance scripted_changes
  : AsyncClient.StreamParameterChanges ScriptedClient
      (list (result ParameterChange.raw)) :=
  fun c _ _ => changes c.
Global Instance scripted_states
  : AsyncClient.StreamDeviceState ScriptedClient (list (result string)) :=
  fun c _ _ _ => states c.

(** A 2x1 [u8] frame numbered [n]. *)
Definition frame (n : Z) : Frame.t :=
  Frame.mk "camera_0" n 2 1 (1000 * n) (Some [x01; x02]) "u8".

(** A frame streamed with [include_pixel_data=False], and a frame whose
    dimensions are negative although their product fits the buffer. *)
Definition frame_without_pixels : Frame.t :=
  Frame.mk "camera_0" 1 2 1 1000 None "u8".

Definition frame_with_negative_sides : Frame.t :=
  Frame.mk "camera_0" 1 (-1) (-2) 1000 (Some [x01; x02]) "u8".

(** An empty frame of no columns and 2^63 rows. *)
Definition frame_with_a_huge_side : Frame.t :=
  Frame.mk "camera_0" 1 0 (2 ^ 63) 1000 (Some []) "u8".

(** A 3x2 big-endian 16-bit frame. *)
Definition frame_u16 : Frame.t :=
  Frame.mk "camera_0" 7 3 2 7000
    (Some [x00; x01; x00; x02; x00; x03; x00; x04; x00; x05; x00; x06])
    "u16_be".

(** [on_frame = numbers.append]-style callback: it records the frame
    number in the user's list. *)
Definition note_number : callback (list Z) Frame.t :=
  function (fun f u => (Return tt, u ++ [Frame.frame_number f])).

(** A callback that rejects every event. *)
Definition refuse {E} : callback (list Z) E :=
  function (fun _ u => (Raise (Exception "refused"), u)).

(** A collector object: a list subclass whose [__call__] appends the frame
    number to itself. It is passed in empty, and it stays empty as long as
    it is not called: its truth value is false at every test. *)
Definition empty_collector : callback (list Z) Frame.t :=
  Callback false (fun f u => (Return tt, u ++ [Frame.frame_number f])).

Definition empty_name_collector : callback (list string) ParameterChange.t :=
  Callback false (fun c u => (Return tt, u ++ [ParameterChange.name c])).

(** A callback that draws from an exhausted iterator: [next(it)] raises
    [StopIteration] inside it. *)
Definition draws_from_empty {E} : callback (list Z) E :=
  function (fun _ u => (Raise StopIteration, u)).

(** The loop body of the examples leaves the user's state alone. *)
Definition skip {E U} : E -> U -> U := fun _ u => u.

Definition change (name old new : string) : ParameterChange.t :=
  ParameterChange.mk "laser" name old new "".

Definition note_name : callback (list string) ParameterChange.t :=
  function (fun c u => (Return tt, u ++ [ParameterChange.name c])).

(** A reader of plain integer literals ([-]digits), standing in for the
    builtin [float] in the examples: the number read, or [ValueError]. *)
Definition digit_value (a : Ascii.ascii) : option Z :=
  let n := Z.of_nat (Ascii.nat_of_ascii a) in
  if (48 <=? n) && (n <=? 57) then Some (n - 48) else None.

Fixpoint read_digits (acc : Z) (s : string) : option Z :=
  match s with
  | EmptyString => Some acc
  | String a s' =>
      match digit_value a with
      | Some d => read_digits (10 * acc + d) s'
      | None => None
      end
  end.

Definition read_integer (s : string) : option Z :=
  match s with
  | EmptyString => None
  | String a s' =>
      if Ascii.eqb a (Ascii.ascii_of_nat 45) then   (* the minus sign *)
        match s' with
        | EmptyString => None
        | _ => Z.opp <$> read_digits 0 s'
        end
      else read_digits 0 s
  end.

Global Instance integer_literals : ParameterChange.Float Z :=
  fun s =>
    match read_integer s with
    | Some z => Return z
    | None =>
        Raise (ValueError ("could not convert string to float: '" +:+ s +:+ "'"))
    end.

(** A stub that answers [UploadScript] with a fixed reply and counts the
    calls, and whose streams replay fixed scripts. *)
Record ScriptedStub : Type := mkStub {
  upload_reply : result daq_pb2.UploadResponse;
  upload_calls : nat;
  status_script : list (result daq_pb2.SystemStatus);
  measurement_script : list (result daq_pb2.DataPoint)
}.

Global Instance scripted_stub
  : daq_pb2_grpc.ControlServiceStub ScriptedStub
      (list (result daq_pb2.SystemStatus))
      (list (result daq_pb2.DataPoint)) := {|
  daq_pb2_grpc.UploadScript := fun s _ =>
    (upload_reply s,
     mkStub (upload_reply s) (S (upload_calls s)) (status_script s)
            (measurement_script s));
  daq_pb2_grpc.StreamStatus := fun s _ => status_script s;
  daq_pb2_grpc.StreamMeasurements := fun s _ => measurement_script s
|}.

Definition status (n : Z) : daq_pb2.SystemStatus :=
  daq_pb2.mkSystemStatus 1 (daq_pb2.F64 0) ∅ n.

Definition scalar_point (n : Z) : daq_pb2.DataPoint :=
  daq_pb2.mkDataPoint "stage" n (daq_pb2.Scalar (daq_pb2.F64 n)).

Definition image_point (n : Z) : daq_pb2.DataPoint :=
  daq_pb2.mkDataPoint "camera" n (daq_pb2.Image [x0a; x0b]).

Definition empty_point (n : Z) : daq_pb2.DataPoint :=
  daq_pb2.mkDataPoint "stage" n daq_pb2.NotSet.

(** A daemon whose streams end normally and which accepts the script, and
    one whose connection breaks after the same events and which rejects
    the script. *)
Definition healthy : ScriptedStub :=
  mkStub (Return (daq_pb2.mkUploadResponse true "script-1" "")) 0
    [Return (status 1); Return (status 2)]
    [Return (scalar_point 1); Return (image_point 2); Return (empty_point 3)].

Definition broken : ScriptedStub :=
  mkStub (Return (daq_pb2.mkUploadResponse false "" "syntax error")) 0
    [Return (status 1); Return (status 2);
     Raise (RpcError "connection reset")]
    [Return (scalar_point 1); Return (image_point 2); Return (empty_point 3);
     Raise (RpcError "connection reset")].

Definition unreachable : ScriptedStub :=
  mkStub (Raise (RpcError "failed to connect")) 0 [] [].

(** [DaqClient()] on a channel to the given daemon. *)
Definition client_of (stub : ScriptedStub) : DaqClient.t ScriptedStub :=
  DaqClient.mk "localhost:50051" stub [].

(** A camera that produces three frames, a laser whose parameters change
    twice (one of the values is an enumeration member, not a number), and
    two device-state updates. *)
Definition daemon : ScriptedClient :=
  mkClient
    [Return (Frame.to_raw (frame 1)); Return (Frame.to_raw (frame 2));
     Return (Frame.to_raw (frame 3))]
    [Return (ParameterChange.to_raw (change "wavelength_nm" "800" "850"));
     Return (ParameterChange.to_raw (change "shutter" "CLOSED" "OPEN"))]
    [Return "motor_x: snapshot"; Return "motor_x: position"].

(** [FrameStream(daemon, "camera_0", max_frames=..., on_frame=...)],
    entered. *)
Definition camera_stream (max_frames : option Z)
    (on_frame : option (callback (list Z) Frame.t))
  : FrameStream.t ScriptedClient (list (result Frame.raw)) (list Z) :=
  FrameStream.__aenter__
    (FrameStream.__init__ daemon "camera_0" true max_frames on_frame).

(** [ParameterSubscription(daemon, device_id="laser", on_change=...)],
    entered. *)
Definition laser_subscription
    (on_change : option (callback (list string) ParameterChange.t))
  : ParameterSubscription.t ScriptedClient
      (list (result ParameterChange.raw)) (list string) :=
  ParameterSubscription.__aenter__
    (ParameterSubscription.__init__ daemon (Some "laser") None on_change).

(** [DeviceStateStream(daemon, ["motor_x"], max_rate_hz=hz)], entered. *)
Definition motor_stream (hz : Z)
  : DeviceStateStream.t ScriptedClient (list (result string)) :=
  DeviceStateStream.__aenter__
    (DeviceStateStream.__init__ daemon (Some ["motor_x"]) hz true).

End Samples.

(** ** The other control calls of [DaqClient]

    [start_script], [get_status] and [stop_script] of [daq_client.py]. They
    act on the same client object; the log [DaqClient.sent] lists the
    [UploadScript] requests only and is left alone. *)

Module DaqClientControl.

Record StartRequest : Type := mkStartRequest {
  start_script_id : string
}.

(** Modelled from the spec: the generated message class is not part of the
    sources; section 6 gives
    [StartScript(script_id) -> {started: bool, execution_id: string}]. *)
Record StartResponse : Type := mkStartResponse {
  started : bool;
  start_execution_id : string
}.

(** [daq_pb2.StatusRequest(execution_id=...)], as [get_status] builds it. *)
Record ScriptStatusRequest : Type := mkScriptStatusRequest {
  query_execution_id : string
}.

(** Modelled from the spec: the generated message class is not part of the
    sources; section 6 gives [GetScriptStatus(execution_id) ->
    {execution_id, state, error_message, start_time_ns, end_time_ns}];
    [state] is the number of the enumeration member. *)
Record ScriptStatus : Type := mkScriptStatus {
  execution_id : string;
  state : Z;
  error_message : string;
  start_time_ns : Z;
  end_time_ns : Z
}.

Record StopRequest : Type := mkStopRequest {
  stop_execution_id : string
}.

(** Modelled from the spec: the generated message class is not part of the
    sources; section 6 gives [StopScript(execution_id) -> {stopped: bool}]. *)
Record StopResponse : Type := mkStopResponse {
  stopped : bool
}.

(** The three unary calls of the stub that [DaqClient] uses besides
    [UploadScript]. *)
Class ControlCalls (S : Type) := {
  StartScript : S -> StartRequest -> result StartResponse * S;
  GetScriptStatus : S -> ScriptStatusRequest -> result ScriptStatus * S;
  StopScript : S -> StopRequest -> result StopResponse * S
}.

(** [str(b)] for a [bool], as an f-string renders it. *)
Definition str_bool (b : bool) : string := if b then "True" else "False".

Section Class.
Context {S : Type} `{!ControlCalls S}.

(** The client after a call has left the stub in the state [stub']. *)
Definition after_call (stub' : S) (self : DaqClient.t S) : DaqClient.t S :=
  DaqClient.mk (DaqClient.address self) stub' (DaqClient.sent self).

Definition start_script (self : DaqClient.t S) (script_id : string)
  : result string * DaqClient.t S :=
  let request := mkStartRequest script_id in
  let '(r, stub') := StartScript (DaqClient.stub self) request in
  let self := after_call stub' self in
  match r with
  | Raise (RpcError details) =>
      (Raise (RuntimeError ("gRPC error during start: " +:+ details)), self)
  | Raise e => (Raise e, self)
  | Return response =>
      if negb (started response) then
        (Raise (RuntimeError
                  ("Start failed (started=" +:+ str_bool (started response)
                   +:+ ")")),
         self)
      else (Return (start_execution_id response), self)
  end.

Definition get_status (self : DaqClient.t S) (execution_id_arg : string)
  : result (gmap string DaqClient.pyvalue) * DaqClient.t S :=
  let request := mkScriptStatusRequest execution_id_arg in
  let '(r, stub') := GetScriptStatus (DaqClient.stub self) request in
  let self := after_call stub' self in
  match r with
  | Raise (RpcError details) =>
      (Raise (RuntimeError ("gRPC error getting status: " +:+ details)), self)
  | Raise e => (Raise e, self)
  | Return response =>
      (Return
         {[ "execution_id" := DaqClient.VStr (execution_id response);
            "state" := DaqClient.VInt (state response);
            "error" := DaqClient.VStr (error_message response);
            "start_time" := DaqClient.VInt (start_time_ns response);
            "end_time" := DaqClient.VInt (end_time_ns response) ]},
       self)
  end.

Definition stop_script (self : DaqClient.t S) (execution_id_arg : string)
  : result bool * DaqClient.t S :=
  let request := mkStopRequest execution_id_arg in
  let '(r, stub') := StopScript (DaqClient.stub self) request in
  let self := after_call stub' self in
  match r with
  | Raise (RpcError details) =>
      (Raise (RuntimeError ("gRPC error stopping script: " +:+ details)), self)
  | Raise e => (Raise e, self)
  | Return response => (Return (stopped response), self)
  end.

End Class.

End DaqClientControl.

(** ** Further vocabulary *)

(** The number of calls that returned an event. *)
Fixpoint returned {E} (obs : list (observed E)) : Z :=
  match obs with
  | [] => 0
  | Got (Return _) :: obs' => 1 + returned obs'
  | _ :: obs' => returned obs'
  end.

(** The key of a dictionary entry that is missing. *)
Definition absent {A} (entry : option A) (key : string) : list string :=
  match entry with
  | Some _ => []
  | None => [key]
  end.

(** The keys that a frame dictionary lacks, in the order in which
    [FrameStream.__anext__] reads them. *)
Definition missing_keys (r : Frame.raw) : list string :=
  absent (Frame.raw_device_id r) "device_id" ++
  absent (Frame.raw_frame_number r) "frame_number" ++
  absent (Frame.raw_width r) "width" ++
  absent (Frame.raw_height r) "height" ++
  absent (Frame.raw_timestamp_ns r) "timestamp_ns" ++
  absent (Frame.raw_pixel_data r) "pixel_data" ++
  absent (Frame.raw_pixel_format r) "pixel_format".

(** How the loops of [stream_status] and [stream_measurements] end when
    the response iterator raises [e]: exhaustion and [grpc.RpcError] end
    the generator, anything else leaves it as an exception. *)
Definition ending (e : exn) : loop_end :=
  if is_StopIteration e then Finished
  else
    match e with
    | RpcError _ => Finished
    | _ => Propagated e
    end.

(** More scripted collaborators. *)
Module MoreSamples.

(** A camera whose connection fails once between the first and the second
    frame, and a camera whose second dictionary lacks two entries. *)
Definition flaky : Samples.ScriptedClient :=
  Samples.mkClient
    [Return (Frame.to_raw (Samples.frame 1));
     Raise (RpcError "deadline exceeded");
     Return (Frame.to_raw (Samples.frame 2))]
    [] [].

(** A camera whose iterator raises [StopIteration] after the first frame
    (a synchronous iterator behind an [__anext__] that is not a
    coroutine). *)
Definition stale : Samples.ScriptedClient :=
  Samples.mkClient
    [Return (Frame.to_raw (Samples.frame 1)); Raise StopIteration] [] [].

Definition clipped : Frame.raw :=
  Frame.mk_raw (Some "camera_0") (Some 2) (Some 2) None (Some 2000)
    (Some None) None.

Definition sloppy : Samples.ScriptedClient :=
  Samples.mkClient
    [Return (Frame.to_raw (Samples.frame 1)); Return clipped;
     Return (Frame.to_raw (Samples.frame 3))]
    [] [].

Definition stream_of (c : Samples.ScriptedClient) (max_frames : option Z)
    (on_frame : option (callback (list Z) Frame.t))
  : FrameStream.t Samples.ScriptedClient (list (result Frame.raw)) (list Z) :=
  FrameStream.__aenter__
    (FrameStream.__init__ c "camera_0" true max_frames on_frame).

(** A 2x2 [u16_le] frame with seven bytes of pixel data. *)
Definition short_frame : Frame.t :=
  Frame.mk "camera_0" 1 2 2 1000
    (Some [x01; x02; x03; x04; x05; x06; x07]) "u16_le".

(** A daemon seen through its three other unary calls: fixed replies, and
    the number of calls made. *)
Record ControlStub : Type := mkControl {
  start_reply : result DaqClientControl.StartResponse;
  status_reply : result DaqClientControl.ScriptStatus;
  stop_reply : result DaqClientControl.StopResponse;
  calls : nat
}.

Definition called (s : ControlStub) : ControlStub :=
  mkControl (start_reply s) (status_reply s) (stop_reply s) (S (calls s)).

Global Instance control_stub : DaqClientControl.ControlCalls ControlStub := {|
  DaqClientControl.StartScript := fun s _ => (start_reply s, called s);
  DaqClientControl.GetScriptStatus := fun s _ => (status_reply s, called s);
  DaqClientControl.StopScript := fun s _ => (stop_reply s, called s)
|}.

(** A daemon that refuses to start the script, reports an execution in
    state 3 with an error message, and has nothing to stop. *)
Definition refusing : ControlStub :=
  mkControl
    (Return (DaqClientControl.mkStartResponse false ""))
    (Return (DaqClientControl.mkScriptStatus "exec-1" 3 "stage fault" 10 20))
    (Return (DaqClientControl.mkStopResponse false))
    0.

Definition control_client (stub : ControlStub) : DaqClient.t ControlStub :=
  DaqClient.mk "localhost:50051" stub [].

(** A status stream in which the response iterator fails with something
    that is not a [grpc.RpcError]. *)
Definition crashing : Samples.ScriptedStub :=
  Samples.mkStub (Return (daq_pb2.mkUploadResponse true "script-1" "")) 0
    [Return (Samples.status 1); Raise (ValueError "bad payload");
     Return (Samples.status 2)]
    [Return (Samples.scalar_point 1); Raise (ValueError "bad payload")].

End MoreSamples.

(** * Properties *)

(** ** The loops *)

Section LoopFacts.
Context {St E U : Type}.
Variable step : St -> world U E -> result E * St * world U E.
Variable body : E -> U -> U.

(** A loop that is still running after [k] rounds continues from the
    state it has reached. *)
Lemma async_for_continue (k m : nat) (s s' : St) (w w' : world U E) :
  async_for step body k s w = (StillRunning, s', w') ->
  async_for step body (k + m) s w = async_for step body m s' w'.
Proof.
  revert s w. induction k as [|k IH]; intros s w H; simpl in *.
  - by inversion H.
  - destruct (step s w) as [[[e|ex] s1] w1].
    + by apply IH.
    + destruct (is_StopAsyncIteration ex); discriminate.
Qed.

(** A step that raises [StopAsyncIteration] ends the loop at once. *)
Lemma async_for_stop (m : nat) (s s' : St) (w w' : world U E) :
  step s w = (Raise StopAsyncIteration, s', w') ->
  async_for step body (S m) s w = (Finished, s', w').
Proof. intros H. simpl. by rewrite H. Qed.

End LoopFacts.

(** A [for] loop that is still running after [k] rounds goes on from
    where it is. *)
Lemma for_in_continue {St E W} (step : St -> W -> result E * St * W) k :
  forall m s w l s' w',
  for_in step k s w = (l, StillRunning, s', w') ->
  for_in step (k + m) s w =
    let '(l2, r, s2, w2) := for_in step m s' w' in (l ++ l2, r, s2, w2).
Proof.
  induction k as [|k IH]; intros m s w l s' w' Hk; simpl in Hk.
  - injection Hk as <- <- <-. simpl. by destruct (for_in step m s w) as [[[] ]].
  - simpl. destruct (step s w) as [[[e|ex] s1] w1].
    + destruct (for_in step k s1 w1) as [[[l1 r1] s2] w2] eqn:Hk1.
      injection Hk as <- -> -> ->.
      rewrite (IH m s1 w1 l1 s' w' Hk1).
      by destruct (for_in step m s' w') as [[[l2 r2] s3] w3].
    + destruct (is_StopIteration ex); discriminate.
Qed.

Lemma paired_trace_app {U E} (o : option (callback U E)) (l1 l2 : list E) :
  paired_trace o (l1 ++ l2) = paired_trace o l1 ++ paired_trace o l2.
Proof. unfold paired_trace. by rewrite flat_map_app. Qed.

Lemma delivered_app {E} (t1 t2 : list (event E)) :
  delivered (t1 ++ t2) = delivered t1 ++ delivered t2.
Proof. unfold delivered. by rewrite omap_app. Qed.

Lemma invocations_app {E} (t1 t2 : list (event E)) :
  invocations (t1 ++ t2) = invocations t1 ++ invocations t2.
Proof. unfold invocations. by rewrite omap_app. Qed.

(** Every event of a paired trace is delivered, once and in order. *)
Lemma delivered_paired_trace {U E} (o : option (callback U E)) (es : list E) :
  delivered (paired_trace o es) = es.
Proof.
  induction es as [|e es IH]; [done|].
  unfold paired_trace in *. simpl. rewrite delivered_app, IH.
  by destruct o as [[[] ?]|].
Qed.

(** With a callback whose truth value is true, every event of a paired
    trace is passed to it, once and in order. *)
Lemma invocations_paired_trace {U E} (cb : callback U E) (es : list E) :
  truthy cb = true -> invocations (paired_trace (Some cb) es) = es.
Proof.
  intros Ht. induction es as [|e es IH]; [done|].
  unfold paired_trace in *. simpl. rewrite Ht in *. simpl. by rewrite IH.
Qed.

Lemma pull_length {I A} (step : I -> result A * I) k : forall it l it',
  pull step k it = Some (l, it') -> length l = k.
Proof.
  induction k as [|k IH]; intros it l it' Hk; simpl in Hk.
  - by injection Hk as <- <-.
  - destruct (step it) as [[a|e] it1]; [|done].
    destruct (pull step k it1) as [[l' it3]|] eqn:Hk'; [|done].
    injection Hk as <- <-. simpl. f_equal. by eapply IH.
Qed.

(** What leaves a coroutine by an exception other than
    [StopAsyncIteration] is not a [StopAsyncIteration] either. *)
Lemma leave_coroutine_not_stop (e : exn) :
  is_StopAsyncIteration e = false ->
  is_StopAsyncIteration (leave_coroutine e) = false.
Proof. by destruct e. Qed.

Lemma decoded_length {R E} (of_raw : R -> result E) raws es :
  decoded of_raw raws es -> length es = length raws.
Proof. intros H. symmetry. by eapply Forall2_length. Qed.

(** ** [FrameStream] *)

Section FrameStreamFacts.
Context {C I U : Type}.
Context {client_frames : AsyncClient.StreamFrames C I}.
Context {upstream : AsyncIterator I Frame.raw}.
Implicit Types (s : FrameStream.t C I U) (w : world U Frame.t).

Import FrameStream.

Lemma advanced_advanced k1 k2 it1 it2 s :
  advanced k2 it2 (advanced k1 it1 s) = advanced (k1 + k2) it2 s.
Proof.
  destruct s. unfold advanced, set_frame_count, set_iterator. simpl.
  f_equal. lia.
Qed.

(** One call of [__anext__] on an open stream below its cap, when the
    upstream iterator returns a complete dictionary. *)
Lemma anext_frame s w it it' raw frame :
  _active s = true -> _iterator s = Some it -> cap_reached s = false ->
  anext it = (Return raw, it') -> Frame.of_raw raw = Return frame ->
  __anext__ s w =
    match _on_frame s with
    | Some cb =>
        if truthy cb then
          let '(r, w') := invoke cb frame w in
          (match r with
           | Return _ => Return frame
           | Raise e => Raise (leave_coroutine e)
           end,
           advanced 1 it' s, w')
        else (Return frame, advanced 1 it' s, w)
    | None => (Return frame, advanced 1 it' s, w)
    end.
Proof.
  intros Ha Hi Hc Hn Hd. unfold __anext__.
  rewrite Ha, Hi, Hc, Hn, Hd. simpl.
  destruct (_on_frame s) as [cb|]; [|done].
  destruct (truthy cb); [|done].
  by destruct (invoke cb frame w) as [[[]|e] w'].
Qed.

(** A closed or exhausted stream, and a stream at its cap, raise
    [StopAsyncIteration] and change nothing. *)
Lemma anext_stopped s w :
  _active s = false \/ _iterator s = None \/ cap_reached s = true ->
  __anext__ s w = (Raise StopAsyncIteration, s, w).
Proof.
  intros Hs. unfold __anext__.
  destruct (_active s) eqn:Ha, (_iterator s) as [it|] eqn:Hi; try done.
  destruct Hs as [Hs|[Hs|Hs]]; try done. by rewrite Hs.
Qed.

Lemma advanced_0 s it : _iterator s = Some it -> advanced 0 it s = s.
Proof.
  destruct s. unfold advanced, set_frame_count, set_iterator. simpl.
  intros ->. f_equal. lia.
Qed.

Lemma room_cap_reached s k : 0 < k -> room k s -> cap_reached s = false.
Proof.
  unfold room, cap_reached, truthy_int. destruct (_max_frames s) as [m|]; [|done].
  intros Hk [->|Hm]; [done|].
  apply andb_false_iff. right. lia.
Qed.

Lemma cap_reached_at s m :
  _max_frames s = Some m -> 0 < m -> m <= _frame_count s -> cap_reached s = true.
Proof.
  unfold cap_reached, truthy_int. intros -> Hm Hc.
  apply andb_true_iff. split; [apply negb_true_iff|]; lia.
Qed.

Lemma advanced_fields k it s :
  _active (advanced k it s) = _active s /\
  _iterator (advanced k it s) = Some it /\
  _on_frame (advanced k it s) = _on_frame s /\
  _max_frames (advanced k it s) = _max_frames s /\
  _frame_count (advanced k it s) = _frame_count s + k.
Proof. by destruct s. Qed.

Lemma room_advanced s it k : room (1 + k) s -> room k (advanced 1 it s).
Proof.
  unfold room. destruct s; simpl.
  destruct _max_frames0; [|done]. intros [?|?]; [by left|right; lia].
Qed.

(** The same call when the callback, if there is one, returns normally. *)
Lemma anext_frame_quiet s w it it' raw frame :
  _active s = true -> _iterator s = Some it -> cap_reached s = false ->
  quiet (_on_frame s) ->
  anext it = (Return raw, it') -> Frame.of_raw raw = Return frame ->
  exists u1,
    __anext__ s w =
      (Return frame, advanced 1 it' s,
       World u1 (trace w ++ invoked_on (_on_frame s) frame)).
Proof.
  intros Ha Hi Hc Hq Hn Hd.
  rewrite (anext_frame s w it it' raw frame) by done.
  destruct (_on_frame s) as [cb|] eqn:Hcb; simpl.
  - destruct (truthy cb) eqn:Ht; simpl.
    + unfold invoke. specialize (Hq cb eq_refl Ht frame (user w)).
      destruct (__call__ cb frame (user w)) as [r u1]. simpl in Hq. subst r.
      by exists u1.
    + exists (user w). rewrite app_nil_r. by destruct w.
  - exists (user w). rewrite app_nil_r. by destruct w.
Qed.

(** [k] frames in a row: the loop hands each one over, after the callback
    (if any) has been called on it, and is ready for the next. *)
Lemma frames_run (body : Frame.t -> U -> U) k : forall s w it it' raws fs,
  _active s = true -> _iterator s = Some it -> quiet (_on_frame s) ->
  room (Z.of_nat k) s ->
  pull anext k it = Some (raws, it') -> decoded Frame.of_raw raws fs ->
  exists u',
    async_for __anext__ body k s w =
      (StillRunning, advanced (Z.of_nat k) it' s,
       World u' (trace w ++ paired_trace (_on_frame s) fs)).
Proof.
  induction k as [|k IH]; intros s w it it' raws fs Ha Hi Hq Hr Hp Hd.
  - simpl in Hp. injection Hp as <- <-. inversion Hd; subst.
    exists (user w). simpl. rewrite advanced_0 by done.
    rewrite app_nil_r. by destruct w.
  - simpl in Hp. destruct (anext it) as [[raw|e] it1] eqn:Hn; [|done].
    destruct (pull anext k it1) as [[raws' it2]|] eqn:Hp'; [|done].
    injection Hp as <- <-. inversion Hd as [|? f ? fs' Hf Hd']; subst.
    assert (Hc : cap_reached s = false)
      by (eapply room_cap_reached; [|done]; lia).
    destruct (anext_frame_quiet s w it it1 raw f) as [u1 Hstep]; try done.
    destruct (advanced_fields 1 it1 s) as (Ha1 & Hi1 & Hcb1 & _ & _).
    set (w1 := deliver body f (World u1 (trace w ++
                 invoked_on (_on_frame s) f))).
    assert (Hr1 : room (Z.of_nat k) (advanced 1 it1 s)).
    { apply room_advanced.
      by replace (1 + Z.of_nat k) with (Z.of_nat (S k)) by lia. }
    assert (Hq1 : quiet (_on_frame (advanced 1 it1 s))) by (by rewrite Hcb1).
    rewrite <- Ha1 in Ha.
    destruct (IH (advanced 1 it1 s) w1 it1 it2 raws' fs' Ha Hi1 Hq1 Hr1 Hp' Hd')
      as [u' Hrun].
    exists u'. simpl. rewrite Hstep. fold w1. rewrite Hrun.
    rewrite advanced_advanced, Hcb1.
    replace (1 + Z.of_nat k) with (Z.of_nat (S k)) by lia.
    do 2 f_equal. subst w1. simpl. rewrite <- !app_assoc.
    f_equal. by destruct (_on_frame s) as [[[] ?]|].
Qed.

Lemma aenter_fields s :
  _active (__aenter__ s) = true /\
  _iterator (__aenter__ s) =
    Some (AsyncClient.stream_frames (_client s) (_device_id s)
            (_include_pixel_data s)) /\
  _frame_count (__aenter__ s) = 0 /\
  _max_frames (__aenter__ s) = _max_frames s /\
  _on_frame (__aenter__ s) = _on_frame s.
Proof. by destruct s. Qed.

(** A positive cap is enforced: a stream opened with [max_frames = n > 0]
    on an upstream iterator that produces at least [n] complete frames
    hands exactly the first [n] of them to the loop, which then ends; the
    upstream iterator is asked [n] times, and every later [__anext__]
    raises [StopAsyncIteration] without asking it again. *)
Lemma max_frames_positive_cap (body : Frame.t -> U -> U) (n : Z) (m : nat)
    s w raws it' fs :
  0 < n -> _max_frames s = Some n -> quiet (_on_frame s) ->
  pull anext (Z.to_nat n)
    (AsyncClient.stream_frames (_client s) (_device_id s)
       (_include_pixel_data s)) = Some (raws, it') ->
  decoded Frame.of_raw raws fs ->
  exists u',
    let closed := advanced n it' (__aenter__ s) in
    async_for __anext__ body (Z.to_nat n + S m) (__aenter__ s) w =
      (Finished, closed, World u' (trace w ++ paired_trace (_on_frame s) fs)) /\
    delivered (paired_trace (_on_frame s) fs) = fs /\
    Z.of_nat (length fs) = n /\
    forall w', __anext__ closed w' = (Raise StopAsyncIteration, closed, w').
Proof.
  intros Hn Hmax Hq Hp Hd.
  destruct (aenter_fields s) as (Ha & Hi & Hc & Hm & Hcb).
  assert (Hq' : quiet (_on_frame (__aenter__ s))) by (by rewrite Hcb).
  assert (Hr : room (Z.of_nat (Z.to_nat n)) (__aenter__ s)).
  { unfold room. rewrite Hm, Hmax, Hc. right. lia. }
  destruct (frames_run body (Z.to_nat n) (__aenter__ s) w _ it' raws fs
              Ha Hi Hq' Hr Hp Hd) as [u' Hrun].
  rewrite Z2Nat.id in Hrun by lia. rewrite Hcb in Hrun.
  assert (Hstop : forall w',
    __anext__ (advanced n it' (__aenter__ s)) w' =
      (Raise StopAsyncIteration, advanced n it' (__aenter__ s), w')).
  { intros w'. apply anext_stopped. right. right.
    destruct (advanced_fields n it' (__aenter__ s)) as (_ & _ & _ & Hm' & Hc').
    apply (cap_reached_at _ n); [by rewrite Hm', Hm|done|rewrite Hc', Hc; lia]. }
  exists u'. simpl. split; [|split; [|split]].
  - rewrite (async_for_continue _ _ _ _ _ _ _ _ Hrun).
    apply async_for_stop, Hstop.
  - apply delivered_paired_trace.
  - rewrite (decoded_length _ _ _ Hd), (pull_length _ _ _ _ _ Hp). lia.
  - exact Hstop.
Qed.

(** With [max_frames = 0] the test [self._max_frames and ...] is false
    whatever the frame count is. *)
Lemma cap_reached_zero s : _max_frames s = Some 0 -> cap_reached s = false.
Proof. unfold cap_reached. by intros ->. Qed.

Lemma cap_reached_none s : _max_frames s = None -> cap_reached s = false.
Proof. unfold cap_reached. by intros ->. Qed.

(** C10. A stream constructed with [max_frames = 0] has no cap: each
    [__anext__] does exactly what it does on the same stream constructed
    with [max_frames = None], and the loop receives every frame that the
    upstream iterator produces, however many ([k] frames for every [k]),
    instead of none. *)
Theorem C10_max_frames_zero_is_unlimited (body : Frame.t -> U -> U) s :
  _max_frames s = Some 0 ->
  (forall w,
     __anext__ s w =
       let '(r, s', w') := __anext__ (with_max_frames None s) w in
       (r, with_max_frames (Some 0) s', w')) /\
  (forall k w it it' raws fs,
     _active s = true -> _iterator s = Some it -> quiet (_on_frame s) ->
     pull anext k it = Some (raws, it') -> decoded Frame.of_raw raws fs ->
     exists u',
       async_for __anext__ body k s w =
         (StillRunning, advanced (Z.of_nat k) it' s,
          World u' (trace w ++ paired_trace (_on_frame s) fs)) /\
       delivered (paired_trace (_on_frame s) fs) = fs /\
       length fs = k).
Proof.
  intros Hz. split.
  - intros w. unfold __anext__.
    rewrite (cap_reached_zero s Hz).
    rewrite (cap_reached_none (with_max_frames None s)) by done.
    destruct s as [c d p mx cb n a [it|]]; simpl in *; subst mx;
      destruct a; try done.
    destruct (anext it) as [[raw|e] it1]; simpl.
    + destruct (Frame.of_raw raw) as [f|e]; [|done].
      destruct cb as [[[] cb]|]; [|done|done]. simpl.
      by destruct (invoke _ f w) as [[[]|e] w'].
    + by destruct (is_StopAsyncIteration e).
  - intros k w it it' raws fs Ha Hi Hq Hp Hd.
    destruct (frames_run body k s w it it' raws fs) as [u' Hrun]; try done.
    { unfold room. rewrite Hz. by left. }
    exists u'. split; [done|]. split; [apply delivered_paired_trace|].
    by rewrite (decoded_length _ _ _ Hd), (pull_length _ _ _ _ _ Hp).
Qed.

End FrameStreamFacts.

(** ** [ParameterSubscription] *)

Section ParameterSubscriptionFacts.
Context {C I U : Type}.
Context {client_changes : AsyncClient.StreamParameterChanges C I}.
Context {upstream : AsyncIterator I ParameterChange.raw}.
Implicit Types (s : ParameterSubscription.t C I U).
Implicit Types (w : world U ParameterChange.t).

Import ParameterSubscription.

Lemma sub_advanced_fields k it s :
  _active (advanced k it s) = _active s /\
  _iterator (advanced k it s) = Some it /\
  _on_change (advanced k it s) = _on_change s /\
  _change_count (advanced k it s) = _change_count s + k.
Proof. by destruct s. Qed.

Lemma sub_advanced_advanced k1 k2 it1 it2 s :
  advanced k2 it2 (advanced k1 it1 s) = advanced (k1 + k2) it2 s.
Proof.
  destruct s. unfold advanced, set_change_count, set_iterator. simpl.
  f_equal. lia.
Qed.

Lemma sub_advanced_0 s it : _iterator s = Some it -> advanced 0 it s = s.
Proof.
  destruct s. unfold advanced, set_change_count, set_iterator. simpl.
  intros ->. f_equal. lia.
Qed.

(** One call of [__anext__] on an open subscription, when the upstream
    iterator returns a complete dictionary. *)
Lemma anext_change s w it it' raw change :
  _active s = true -> _iterator s = Some it ->
  anext it = (Return raw, it') -> ParameterChange.of_raw raw = Return change ->
  __anext__ s w =
    match _on_change s with
    | Some cb =>
        if truthy cb then
          let '(r, w') := invoke cb change w in
          (match r with
           | Return _ => Return change
           | Raise e => Raise (leave_coroutine e)
           end,
           advanced 1 it' s, w')
        else (Return change, advanced 1 it' s, w)
    | None => (Return change, advanced 1 it' s, w)
    end.
Proof.
  intros Ha Hi Hn Hd. unfold __anext__.
  rewrite Ha, Hi, Hn, Hd. simpl.
  destruct (_on_change s) as [cb|]; [|done].
  destruct (truthy cb); [|done].
  by destruct (invoke cb change w) as [[[]|e] w'].
Qed.

Lemma sub_anext_stopped s w :
  _active s = false \/ _iterator s = None ->
  __anext__ s w = (Raise StopAsyncIteration, s, w).
Proof.
  intros Hs. unfold __anext__.
  destruct (_active s) eqn:Ha, (_iterator s) as [it|] eqn:Hi; try done.
  by destruct Hs.
Qed.

Lemma anext_change_quiet s w it it' raw change :
  _active s = true -> _iterator s = Some it -> quiet (_on_change s) ->
  anext it = (Return raw, it') -> ParameterChange.of_raw raw = Return change ->
  exists u1,
    __anext__ s w =
      (Return change, advanced 1 it' s,
       World u1 (trace w ++ invoked_on (_on_change s) change)).
Proof.
  intros Ha Hi Hq Hn Hd.
  rewrite (anext_change s w it it' raw change) by done.
  destruct (_on_change s) as [cb|] eqn:Hcb; simpl.
  - destruct (truthy cb) eqn:Ht; simpl.
    + unfold invoke. specialize (Hq cb eq_refl Ht change (user w)).
      destruct (__call__ cb change (user w)) as [r u1]. simpl in Hq. subst r.
      by exists u1.
    + exists (user w). rewrite app_nil_r. by destruct w.
  - exists (user w). rewrite app_nil_r. by destruct w.
Qed.

(** [k] changes in a row. *)
Lemma changes_run (body : ParameterChange.t -> U -> U) k :
  forall s w it it' raws cs,
  _active s = true -> _iterator s = Some it -> quiet (_on_change s) ->
  pull anext k it = Some (raws, it') ->
  decoded ParameterChange.of_raw raws cs ->
  exists u',
    async_for __anext__ body k s w =
      (StillRunning, advanced (Z.of_nat k) it' s,
       World u' (trace w ++ paired_trace (_on_change s) cs)).
Proof.
  induction k as [|k IH]; intros s w it it' raws cs Ha Hi Hq Hp Hd.
  - simpl in Hp. injection Hp as <- <-. inversion Hd; subst.
    exists (user w). simpl. rewrite sub_advanced_0 by done.
    rewrite app_nil_r. by destruct w.
  - simpl in Hp. destruct (anext it) as [[raw|e] it1] eqn:Hn; [|done].
    destruct (pull anext k it1) as [[raws' it2]|] eqn:Hp'; [|done].
    injection Hp as <- <-. inversion Hd as [|? c ? cs' Hc Hd']; subst.
    destruct (anext_change_quiet s w it it1 raw c) as [u1 Hstep]; try done.
    destruct (sub_advanced_fields 1 it1 s) as (Ha1 & Hi1 & Hcb1 & _).
    set (w1 := deliver body c (World u1 (trace w ++
                 invoked_on (_on_change s) c))).
    assert (Hq1 : quiet (_on_change (advanced 1 it1 s))) by (by rewrite Hcb1).
    rewrite <- Ha1 in Ha.
    destruct (IH (advanced 1 it1 s) w1 it1 it2 raws' cs' Ha Hi1 Hq1 Hp' Hd')
      as [u' Hrun].
    exists u'. simpl. rewrite Hstep. fold w1. rewrite Hrun.
    rewrite sub_advanced_advanced, Hcb1.
    replace (1 + Z.of_nat k) with (Z.of_nat (S k)) by lia.
    do 2 f_equal. subst w1. simpl. rewrite <- !app_assoc.
    f_equal. by destruct (_on_change s) as [[[] ?]|].
Qed.

End ParameterSubscriptionFacts.

(** ** [DeviceStateStream] *)

Section DeviceStateStreamFacts.
Context {C I Upd U : Type}.
Context {client_states : AsyncClient.StreamDeviceState C I}.
Context {upstream : AsyncIterator I Upd}.
Implicit Types (s : DeviceStateStream.t C I).
Implicit Types (w : world U Upd).

Import DeviceStateStream.

Lemma dev_advanced_fields k it s :
  _active (advanced k it s) = _active s /\
  _iterator (advanced k it s) = Some it /\
  _max_rate_hz (advanced k it s) = _max_rate_hz s /\
  _update_count (advanced k it s) = _update_count s + k.
Proof. by destruct s. Qed.

Lemma dev_advanced_advanced k1 k2 it1 it2 s :
  advanced k2 it2 (advanced k1 it1 s) = advanced (k1 + k2) it2 s.
Proof.
  destruct s. unfold advanced, set_update_count, set_iterator. simpl.
  f_equal. lia.
Qed.

Lemma dev_advanced_0 s it : _iterator s = Some it -> advanced 0 it s = s.
Proof.
  destruct s. unfold advanced, set_update_count, set_iterator. simpl.
  intros ->. f_equal. lia.
Qed.

(** One call of [__anext__] on an open stream: the update that the
    upstream iterator returns is returned as it is. *)
Lemma anext_update s it it' (update : Upd) :
  _active s = true -> _iterator s = Some it ->
  anext it = (Return update, it') ->
  __anext__ s = (Return update, advanced 1 it' s).
Proof.
  intros Ha Hi Hn. unfold __anext__. by rewrite Ha, Hi, Hn.
Qed.

Lemma dev_anext_stopped s :
  _active s = false \/ _iterator s = None ->
  __anext__ s = (Raise StopAsyncIteration, s).
Proof.
  intros Hs. unfold __anext__.
  destruct (_active s) eqn:Ha, (_iterator s) as [it|] eqn:Hi; try done.
  by destruct Hs.
Qed.

(** [k] updates in a row. *)
Lemma updates_run (body : Upd -> U -> U) k : forall s w it it' ups,
  _active s = true -> _iterator s = Some it ->
  pull anext k it = Some (ups, it') ->
  exists u',
    async_for (with_world __anext__) body k s w =
      (StillRunning, advanced (Z.of_nat k) it' s,
       World u' (trace w ++ map Delivered ups)).
Proof.
  induction k as [|k IH]; intros s w it it' ups Ha Hi Hp.
  - simpl in Hp. injection Hp as <- <-.
    exists (user w). simpl. rewrite dev_advanced_0 by done.
    rewrite app_nil_r. by destruct w.
  - simpl in Hp. destruct (anext it) as [[u|e] it1] eqn:Hn; [|done].
    destruct (pull anext k it1) as [[ups' it2]|] eqn:Hp'; [|done].
    injection Hp as <- <-.
    destruct (dev_advanced_fields 1 it1 s) as (Ha1 & Hi1 & _).
    rewrite <- Ha1 in Ha.
    destruct (IH (advanced 1 it1 s) (deliver body u w) it1 it2 ups' Ha Hi1 Hp')
      as [u' Hrun].
    exists u'. simpl. unfold with_world at 1.
    rewrite (anext_update s it it1 u) by (by rewrite <- ?Ha1).
    rewrite Hrun, dev_advanced_advanced.
    replace (1 + Z.of_nat k) with (Z.of_nat (S k)) by lia.
    do 2 f_equal. simpl. by rewrite <- !app_assoc.
Qed.

End DeviceStateStreamFacts.

(** ** The frame cap *)

(** C1. The cap fails for [max_frames = 0]: a stream opened with
    [max_frames = 0] on a camera that produces three frames hands all three
    to the loop (and counts them), where the cap asks for none. The test
    [self._max_frames and ...] of [__anext__] takes [0] for "no cap";
    for a positive cap see [max_frames_positive_cap]. *)
Theorem C1_max_frames_zero_yields_frames :
  let '(r, s', w') :=
    async_for FrameStream.__anext__ Samples.skip 10
      (Samples.camera_stream (Some 0) None) (World [] []) in
  r = Finished /\
  delivered (trace w') = [Samples.frame 1; Samples.frame 2; Samples.frame 3] /\
  FrameStream.frame_count s' = 3.
Proof. vm_compute. by repeat split. Qed.

(** The same camera with [max_frames = 2]: two frames, then the end. *)
Example max_frames_two :
  let '(r, s', w') :=
    async_for FrameStream.__anext__ Samples.skip 10
      (Samples.camera_stream (Some 2) None) (World [] []) in
  r = Finished /\
  delivered (trace w') = [Samples.frame 1; Samples.frame 2] /\
  FrameStream._iterator s' = Some [Return (Frame.to_raw (Samples.frame 3))].
Proof. vm_compute. by repeat split. Qed.

Lemma C10_witness :
  exists u',
    async_for FrameStream.__anext__ Samples.skip 3
      (Samples.camera_stream (Some 0) None) (World [] []) =
      (StillRunning,
       FrameStream.advanced 3 [] (Samples.camera_stream (Some 0) None),
       World u'
         ([] ++ paired_trace (U := list Z) None
                  [Samples.frame 1; Samples.frame 2; Samples.frame 3])) /\
    delivered
      (paired_trace (U := list Z) None
         [Samples.frame 1; Samples.frame 2; Samples.frame 3]) =
      [Samples.frame 1; Samples.frame 2; Samples.frame 3] /\
    length [Samples.frame 1; Samples.frame 2; Samples.frame 3] = 3%nat.
Proof.
  refine (proj2 (C10_max_frames_zero_is_unlimited Samples.skip
                   (Samples.camera_stream (Some 0) None) eq_refl)
            3%nat (World [] []) _ [] _ _ eq_refl eq_refl _ eq_refl _).
  - intros cb Hcb. discriminate Hcb.
  - repeat constructor.
Defined.

(** ** The per-event callbacks *)

(** With a callback whose truth value is true (any function or method),
    one [__anext__] that receives an event calls the callback exactly
    once, on that very event, inside the call: the user's state after the
    call is the callback applied once to the state before, the trace gains
    the one entry [Invoked event], and the event is returned only if the
    callback returned (otherwise its exception leaves [__anext__], a
    [StopIteration] as the [RuntimeError] that a coroutine makes of it,
    and nothing is handed over). Over a whole loop whose callback returns
    on every event, the trace is therefore
    [Invoked e1; Delivered e1; Invoked e2; Delivered e2; ...]: each event is
    passed to the callback once, before it is handed to the loop body. *)
Theorem truthy_callback_runs_before_delivery :
  (forall (C I U : Type) (cf : AsyncClient.StreamFrames C I)
          (up : AsyncIterator I Frame.raw)
          (s : FrameStream.t C I U) w it it' raw frame cb,
     FrameStream._active s = true -> FrameStream._iterator s = Some it ->
     FrameStream.cap_reached s = false ->
     FrameStream._on_frame s = Some cb -> truthy cb = true ->
     anext it = (Return raw, it') -> Frame.of_raw raw = Return frame ->
     FrameStream.__anext__ s w =
       (match (__call__ cb frame (user w)).1 with
        | Return _ => Return frame
        | Raise e => Raise (leave_coroutine e)
        end,
        FrameStream.advanced 1 it' s,
        World (__call__ cb frame (user w)).2 (trace w ++ [Invoked frame]))) /\
  (forall (C I U : Type) (cc : AsyncClient.StreamParameterChanges C I)
          (up : AsyncIterator I ParameterChange.raw)
          (s : ParameterSubscription.t C I U) w it it' raw change cb,
     ParameterSubscription._active s = true ->
     ParameterSubscription._iterator s = Some it ->
     ParameterSubscription._on_change s = Some cb -> truthy cb = true ->
     anext it = (Return raw, it') ->
     ParameterChange.of_raw raw = Return change ->
     ParameterSubscription.__anext__ s w =
       (match (__call__ cb change (user w)).1 with
        | Return _ => Return change
        | Raise e => Raise (leave_coroutine e)
        end,
        ParameterSubscription.advanced 1 it' s,
        World (__call__ cb change (user w)).2 (trace w ++ [Invoked change]))) /\
  (forall (C I U : Type) (cf : AsyncClient.StreamFrames C I)
          (up : AsyncIterator I Frame.raw) (body : Frame.t -> U -> U)
          (s : FrameStream.t C I U) k w it it' raws fs cb,
     FrameStream._active s = true -> FrameStream._iterator s = Some it ->
     FrameStream.room (Z.of_nat k) s ->
     FrameStream._on_frame s = Some cb -> truthy cb = true ->
     quiet (Some cb) ->
     pull anext k it = Some (raws, it') -> decoded Frame.of_raw raws fs ->
     exists u',
       async_for FrameStream.__anext__ body k s w =
         (StillRunning, FrameStream.advanced (Z.of_nat k) it' s,
          World u'
            (trace w ++ flat_map (fun f => [Invoked f; Delivered f]) fs))) /\
  (forall (C I U : Type) (cc : AsyncClient.StreamParameterChanges C I)
          (up : AsyncIterator I ParameterChange.raw)
          (body : ParameterChange.t -> U -> U)
          (s : ParameterSubscription.t C I U) k w it it' raws cs cb,
     ParameterSubscription._active s = true ->
     ParameterSubscription._iterator s = Some it ->
     ParameterSubscription._on_change s = Some cb -> truthy cb = true ->
     quiet (Some cb) ->
     pull anext k it = Some (raws, it') ->
     decoded ParameterChange.of_raw raws cs ->
     exists u',
       async_for ParameterSubscription.__anext__ body k s w =
         (StillRunning, ParameterSubscription.advanced (Z.of_nat k) it' s,
          World u'
            (trace w ++ flat_map (fun c => [Invoked c; Delivered c]) cs))).
Proof.
  split; [|split; [|split]].
  - intros C I U cf up s w it it' raw frame cb Ha Hi Hc Hcb Ht Hn Hd.
    rewrite (anext_frame s w it it' raw frame) by done.
    rewrite Hcb, Ht. unfold invoke.
    by destruct (__call__ cb frame (user w)).
  - intros C I U cc up s w it it' raw change cb Ha Hi Hcb Ht Hn Hd.
    rewrite (anext_change s w it it' raw change) by done.
    rewrite Hcb, Ht. unfold invoke.
    by destruct (__call__ cb change (user w)).
  - intros C I U cf up body s k w it it' raws fs cb Ha Hi Hr Hcb Ht Hq Hp Hd.
    rewrite <- Hcb in Hq.
    destruct (frames_run body k s w it it' raws fs Ha Hi Hq Hr Hp Hd)
      as [u' Hrun].
    exists u'. rewrite Hrun, Hcb. unfold paired_trace. by rewrite Ht.
  - intros C I U cc up body s k w it it' raws cs cb Ha Hi Hcb Ht Hq Hp Hd.
    rewrite <- Hcb in Hq.
    destruct (changes_run body k s w it it' raws cs Ha Hi Hq Hp Hd)
      as [u' Hrun].
    exists u'. rewrite Hrun, Hcb. unfold paired_trace. by rewrite Ht.
Qed.

Lemma truthy_callback_witness :
  FrameStream.__anext__
    (Samples.camera_stream None (Some Samples.note_number)) (World [] []) =
    (Return (Samples.frame 1),
     FrameStream.advanced 1
       [Return (Frame.to_raw (Samples.frame 2));
        Return (Frame.to_raw (Samples.frame 3))]
       (Samples.camera_stream None (Some Samples.note_number)),
     World [1] [Invoked (Samples.frame 1)]).
Proof.
  exact (proj1 truthy_callback_runs_before_delivery _ _ _ _ _
           (Samples.camera_stream None (Some Samples.note_number))
           (World [] []) (Samples.frames Samples.daemon) _
           (Frame.to_raw (Samples.frame 1)) (Samples.frame 1)
           Samples.note_number
           eq_refl eq_refl eq_refl eq_refl eq_refl eq_refl eq_refl).
Defined.

(** C6. The callbacks are skipped when their truth value is false: a
    non-None collector object that is empty when it is passed as
    [on_frame] (or [on_change]) is never called, although every event is
    handed to the loop. [__anext__] tests [if self._on_frame:] and
    [if self._on_change:], the truth value of the callback, where a test
    for [None] is what "Optional callback called for each frame" asks
    for. *)
Theorem C6_falsy_callback_is_never_called :
  (let '(r, s', w') :=
     async_for FrameStream.__anext__ Samples.skip 10
       (Samples.camera_stream None (Some Samples.empty_collector))
       (World [] []) in
   r = Finished /\
   delivered (trace w') =
     [Samples.frame 1; Samples.frame 2; Samples.frame 3] /\
   invocations (trace w') = [] /\ user w' = []) /\
  (let '(r, s', w') :=
     async_for ParameterSubscription.__anext__ Samples.skip 10
       (Samples.laser_subscription (Some Samples.empty_name_collector))
       (World [] []) in
   r = Finished /\
   delivered (trace w') =
     [Samples.change "wavelength_nm" "800" "850";
      Samples.change "shutter" "CLOSED" "OPEN"] /\
   invocations (trace w') = [] /\ user w' = []).
Proof. split; vm_compute; by repeat split. Qed.

(** The same collector wrapped in a function is called on every frame. *)
Example wrapped_collector_is_called :
  let '(r, s', w') :=
    async_for FrameStream.__anext__ Samples.skip 10
      (Samples.camera_stream None
         (Some (function (__call__ Samples.empty_collector))))
      (World [] []) in
  invocations (trace w') =
    [Samples.frame 1; Samples.frame 2; Samples.frame 3] /\
  user w' = [1; 2; 3].
Proof. vm_compute. by repeat split. Qed.

(** A callback that raises: it has been called on the frame, the frame is
    counted, and the frame is not handed over. *)
Example callback_raises :
  let '(r, s', w') :=
    FrameStream.__anext__
      (Samples.camera_stream None (Some Samples.refuse)) (World [] []) in
  r = Raise (Exception "refused") /\
  trace w' = [Invoked (Samples.frame 1)] /\
  FrameStream.frame_count s' = 1.
Proof. vm_compute. by repeat split. Qed.

(** A callback that lets a [StopIteration] escape: the coroutine turns it
    into a [RuntimeError]. *)
Example callback_stop_iteration :
  (FrameStream.__anext__
     (Samples.camera_stream None (Some Samples.draws_from_empty))
     (World [] [])).1.1 =
    Raise (RuntimeError "coroutine raised StopIteration").
Proof. reflexivity. Qed.

(** The whole loop over the sample subscription. *)
Example subscription_trace :
  let '(r, _, w') :=
    async_for ParameterSubscription.__anext__ Samples.skip 5
      (Samples.laser_subscription (Some Samples.note_name)) (World [] []) in
  r = Finished /\
  user w' = ["wavelength_nm"; "shutter"] /\
  trace w' =
    [Invoked (Samples.change "wavelength_nm" "800" "850");
     Delivered (Samples.change "wavelength_nm" "800" "850");
     Invoked (Samples.change "shutter" "CLOSED" "OPEN");
     Delivered (Samples.change "shutter" "CLOSED" "OPEN")].
Proof. vm_compute. by repeat split. Qed.

(** ** Closing *)

Section Closing.
Context {C I U : Type}.

Lemma frame_stream_closed
    {cf : AsyncClient.StreamFrames C I} {up : AsyncIterator I Frame.raw}
    (s : FrameStream.t C I U) cs (w : world U Frame.t) :
  FrameStream._active s = false -> FrameStream._iterator s = None ->
  run_calls FrameStream.__anext__ FrameStream.__aexit__ cs s w =
    (map closed_answer cs, s, w).
Proof.
  intros Ha Hi. induction cs as [|[|exc'] cs IH]; [done| |];
    cbn [run_calls map closed_answer].
  - rewrite anext_stopped by (by left). by rewrite IH.
  - replace (FrameStream.__aexit__ s exc') with (false, s); [by rewrite IH|].
    destruct s; simpl in *. by subst.
Qed.

Lemma subscription_closed
    {cc : AsyncClient.StreamParameterChanges C I}
    {up : AsyncIterator I ParameterChange.raw}
    (s : ParameterSubscription.t C I U) cs (w : world U ParameterChange.t) :
  ParameterSubscription._active s = false ->
  ParameterSubscription._iterator s = None ->
  run_calls ParameterSubscription.__anext__ ParameterSubscription.__aexit__
    cs s w =
    (map closed_answer cs, s, w).
Proof.
  intros Ha Hi. induction cs as [|[|exc'] cs IH]; [done| |];
    cbn [run_calls map closed_answer].
  - rewrite sub_anext_stopped by (by left). by rewrite IH.
  - replace (ParameterSubscription.__aexit__ s exc') with (false, s);
      [by rewrite IH|].
    destruct s; simpl in *. by subst.
Qed.

Lemma device_stream_closed {Upd : Type}
    {cd : AsyncClient.StreamDeviceState C I} {up : AsyncIterator I Upd}
    (s : DeviceStateStream.t C I) cs (w : world U Upd) :
  DeviceStateStream._active s = false ->
  DeviceStateStream._iterator s = None ->
  run_calls (with_world DeviceStateStream.__anext__)
    DeviceStateStream.__aexit__ cs s w =
    (map closed_answer cs, s, w).
Proof.
  intros Ha Hi. induction cs as [|[|exc'] cs IH]; [done| |];
    cbn [run_calls map closed_answer].
  - unfold with_world at 1. rewrite dev_anext_stopped by (by left).
    by rewrite IH.
  - replace (DeviceStateStream.__aexit__ s exc') with (false, s);
      [by rewrite IH|].
    destruct s; simpl in *. by subst.
Qed.

End Closing.

(** C2. Once a stream object of any of the three classes has been closed
    by [__aexit__] (which returns [False] and raises nothing), whatever
    calls of [__anext__] and [__aexit__] follow, in any order and number:
    every [__anext__] raises [StopAsyncIteration], every [__aexit__] returns
    [False], and neither the object nor the consumer's world (no callback
    call, no event) changes. *)
Theorem C2_closed_stream_stays_closed :
  (forall (C I U : Type) (cf : AsyncClient.StreamFrames C I)
          (up : AsyncIterator I Frame.raw)
          (s : FrameStream.t C I U) exc cs (w : world U Frame.t),
     (FrameStream.__aexit__ s exc).1 = false /\
     run_calls FrameStream.__anext__ FrameStream.__aexit__ cs
       (FrameStream.__aexit__ s exc).2 w =
       (map closed_answer cs, (FrameStream.__aexit__ s exc).2, w)) /\
  (forall (C I U : Type) (cc : AsyncClient.StreamParameterChanges C I)
          (up : AsyncIterator I ParameterChange.raw)
          (s : ParameterSubscription.t C I U) exc cs
          (w : world U ParameterChange.t),
     (ParameterSubscription.__aexit__ s exc).1 = false /\
     run_calls ParameterSubscription.__anext__
       ParameterSubscription.__aexit__ cs
       (ParameterSubscription.__aexit__ s exc).2 w =
       (map closed_answer cs, (ParameterSubscription.__aexit__ s exc).2, w)) /\
  (forall (C I U Upd : Type) (cd : AsyncClient.StreamDeviceState C I)
          (up : AsyncIterator I Upd)
          (s : DeviceStateStream.t C I) exc cs (w : world U Upd),
     (DeviceStateStream.__aexit__ s exc).1 = false /\
     run_calls (with_world DeviceStateStream.__anext__)
       DeviceStateStream.__aexit__ cs
       (DeviceStateStream.__aexit__ s exc).2 w =
       (map closed_answer cs, (DeviceStateStream.__aexit__ s exc).2, w)).
Proof.
  split; [|split]; intros; (split; [done|]).
  - by apply frame_stream_closed.
  - by apply subscription_closed.
  - by apply device_stream_closed.
Qed.

(** A stream is closed in the middle of the camera's frames; three more
    [__anext__] calls and a second [__aexit__] follow. *)
Example closed_camera_stream :
  let '(r1, s1, w1) :=
    FrameStream.__anext__ (Samples.camera_stream None None) (World [] []) in
  let '(obs, s2, w2) :=
    run_calls FrameStream.__anext__ FrameStream.__aexit__
      [CallExit None; CallNext; CallNext; CallExit None; CallNext] s1 w1 in
  r1 = Return (Samples.frame 1) /\
  obs = [Exited false; Got (Raise StopAsyncIteration);
         Got (Raise StopAsyncIteration); Exited false;
         Got (Raise StopAsyncIteration)] /\
  FrameStream.is_active s2 = false /\ w2 = w1.
Proof. vm_compute. by repeat split. Qed.

(** ** Device state: no rate limiting in the client *)

(** C8. [max_rate_hz] reaches the server and nothing else: [__aenter__]
    passes it to [stream_device_state], whose iterator becomes the
    upstream iterator; [__anext__] never reads it (it behaves the same on
    the same object constructed with any other rate); and each [__anext__]
    on an open stream makes one call upstream and returns that update as
    it is, so a loop receives the upstream updates unchanged, all of them,
    in the same order. *)
Theorem C8_device_state_is_not_rate_limited :
  forall (C I Upd U : Type) (cd : AsyncClient.StreamDeviceState C I)
         (up : AsyncIterator I Upd),
  (forall (c : C) ids hz snap,
     DeviceStateStream._iterator
       (DeviceStateStream.__aenter__
          (DeviceStateStream.__init__ c ids hz snap)) =
       Some (AsyncClient.stream_device_state c ids hz snap) /\
     DeviceStateStream._active
       (DeviceStateStream.__aenter__
          (DeviceStateStream.__init__ c ids hz snap)) = true) /\
  (forall (s : DeviceStateStream.t C I) hz,
     DeviceStateStream.__anext__ (DeviceStateStream.with_max_rate_hz hz s) =
       let '(r, s') := DeviceStateStream.__anext__ s in
       (r, DeviceStateStream.with_max_rate_hz hz s')) /\
  (forall (s : DeviceStateStream.t C I) it it' (update : Upd),
     DeviceStateStream._active s = true ->
     DeviceStateStream._iterator s = Some it ->
     anext it = (Return update, it') ->
     DeviceStateStream.__anext__ s =
       (Return update, DeviceStateStream.advanced 1 it' s)) /\
  (forall (body : Upd -> U -> U) (s : DeviceStateStream.t C I) k
          (w : world U Upd) it it' ups,
     DeviceStateStream._active s = true ->
     DeviceStateStream._iterator s = Some it ->
     pull anext k it = Some (ups, it') ->
     exists u',
       async_for (with_world DeviceStateStream.__anext__) body k s w =
         (StillRunning, DeviceStateStream.advanced (Z.of_nat k) it' s,
          World u' (trace w ++ map Delivered ups))).
Proof.
  intros C I Upd U cd up. split; [|split; [|split]].
  - done.
  - intros s hz. unfold DeviceStateStream.__anext__.
    destruct s as [c ids hz0 snap n [] [it|]]; simpl; try done.
    destruct (anext it) as [[u|e] it1]; simpl; [done|].
    by destruct (is_StopAsyncIteration e).
  - intros s it it' update. apply anext_update.
  - intros body s k w it it' ups. apply updates_run.
Qed.

Lemma C8_witness :
  exists u',
    async_for (with_world DeviceStateStream.__anext__) Samples.skip 2
      (Samples.motor_stream 1) (World tt []) =
      (StillRunning,
       DeviceStateStream.advanced 2 [] (Samples.motor_stream 1),
       World u'
         ([] ++ map Delivered ["motor_x: snapshot"; "motor_x: position"])).
Proof.
  exact (proj2 (proj2 (proj2
           (C8_device_state_is_not_rate_limited _ _ _ unit _ _)))
           Samples.skip (Samples.motor_stream 1) 2%nat (World tt [])
           (Samples.states Samples.daemon) [] _ eq_refl eq_refl eq_refl).
Defined.

(** ** Parameter values are parsed on demand *)

(** C9. [old_as_float] and [new_as_float] are the builtin [float] applied
    to the respective string: they return its number when [float] accepts
    the string and raise what [float] raises when it does not.
    [__anext__] does not call them: it takes no [float] at all, and for a
    complete dictionary with any strings whatever as [old_value] and
    [new_value] it returns the event carrying these strings (provided the
    callback, if one is set, returns normally). *)
Theorem C9_values_are_parsed_on_demand :
  (forall (F : Type) (fl : ParameterChange.Float F) (c : ParameterChange.t),
     ParameterChange.old_as_float c =
       ParameterChange.float (ParameterChange.old_value c) /\
     ParameterChange.new_as_float c =
       ParameterChange.float (ParameterChange.new_value c)) /\
  (forall (C I U : Type) (cc : AsyncClient.StreamParameterChanges C I)
          (up : AsyncIterator I ParameterChange.raw)
          (s : ParameterSubscription.t C I U) w it it' raw d n old new u,
     ParameterSubscription._active s = true ->
     ParameterSubscription._iterator s = Some it ->
     quiet (ParameterSubscription._on_change s) ->
     anext it = (Return raw, it') ->
     raw = ParameterChange.mk_raw (Some d) (Some n) (Some old) (Some new)
             (Some u) ->
     exists w',
       ParameterSubscription.__anext__ s w =
         (Return (ParameterChange.mk d n old new u),
          ParameterSubscription.advanced 1 it' s, w')).
Proof.
  split; [done|].
  intros C I U cc up s w it it' raw d n old new u Ha Hi Hq Hn ->.
  destruct (anext_change_quiet s w it it' _ (ParameterChange.mk d n old new u)
              Ha Hi Hq Hn eq_refl) as [u1 Hstep].
  eauto.
Qed.

Lemma C9_witness :
  exists w',
    ParameterSubscription.__anext__
      (ParameterSubscription.advanced 1
         [Return (ParameterChange.to_raw
                    (Samples.change "shutter" "CLOSED" "OPEN"))]
         (Samples.laser_subscription None))
      (World [] []) =
      (Return (ParameterChange.mk "laser" "shutter" "CLOSED" "OPEN" ""),
       ParameterSubscription.advanced 1 []
         (ParameterSubscription.advanced 1
            [Return (ParameterChange.to_raw
                       (Samples.change "shutter" "CLOSED" "OPEN"))]
            (Samples.laser_subscription None)),
       w').
Proof.
  refine (proj2 C9_values_are_parsed_on_demand _ _ _ _ _
            (ParameterSubscription.advanced 1
               [Return (ParameterChange.to_raw
                          (Samples.change "shutter" "CLOSED" "OPEN"))]
               (Samples.laser_subscription None))
            (World [] [])
            [Return (ParameterChange.to_raw
                       (Samples.change "shutter" "CLOSED" "OPEN"))]
            [] _ "laser" "shutter" "CLOSED" "OPEN" ""
            eq_refl eq_refl _ eq_refl eq_refl).
  intros cb Hcb. discriminate Hcb.
Defined.

(** The delivered event of the witness is not numeric: the caller's
    conversion raises, the delivery did not; the other event converts. *)
Example shutter_is_not_a_number :
  ParameterChange.new_as_float (Samples.change "shutter" "CLOSED" "OPEN") =
    Raise (ValueError "could not convert string to float: 'OPEN'") /\
  ParameterChange.old_as_float (Samples.change "wavelength_nm" "800" "850") =
    Return 800 /\
  ParameterChange.new_as_float (Samples.change "wavelength_nm" "800" "850") =
    Return 850.
Proof. vm_compute. by repeat split. Qed.

(** ** [DaqClient] *)

Section DaqClientFacts.
Context {S IS IM : Type}.
Context {stub_class : daq_pb2_grpc.ControlServiceStub S IS IM}.
Context {status_iterator : Iterator IS daq_pb2.SystemStatus}.
Context {measurement_iterator : Iterator IM daq_pb2.DataPoint}.

Import daq_pb2 daq_pb2_grpc DaqClient.

(** A status stream that yields [xs] and then ends or breaks: the consumer
    gets the dictionaries of [xs] and a normal end of the iteration. *)
Lemma status_run n : forall (it it1 : IS) xs e fuel stdout,
  pull next n it = Some (xs, it1) -> (next it1).1 = Raise e ->
  e = StopIteration \/ (exists d, e = RpcError d) ->
  (n < fuel)%nat ->
  for_in stream_status_next fuel (Suspended it) stdout =
    (map status_dict xs, Finished, Done, stdout ++ logged "Stream error: " e).
Proof.
  induction n as [|n IH]; intros it it1 xs e fuel stdout Hp He Hcase Hf;
    (destruct fuel as [|fuel]; [lia|]); simpl in Hp.
  - injection Hp as Hx Hit. subst. simpl. unfold stream_status_loop.
    destruct (next _) as [r it2]. simpl in He. subst r.
    destruct Hcase as [->|[d ->]]; simpl; [|done].
    by rewrite app_nil_r.
  - destruct (next it) as [[x|e'] it2] eqn:Hn; [|done].
    destruct (pull next n it2) as [[xs' it3]|] eqn:Hp'; [|done].
    injection Hp as <- ->.
    cbn [for_in stream_status_next]. unfold stream_status_loop at 1.
    rewrite Hn.
    rewrite (IH it2 it1 xs' e fuel stdout Hp' He Hcase) by lia.
    done.
Qed.

Lemma measurement_run instrument n : forall (it it1 : IM) xs e fuel stdout,
  pull next n it = Some (xs, it1) -> (next it1).1 = Raise e ->
  e = StopIteration \/ (exists d, e = RpcError d) ->
  (n < fuel)%nat ->
  for_in (stream_measurements_next instrument) fuel (Suspended it) stdout =
    (map measurement_dict xs, Finished, Done,
     stdout ++ logged "Measurement stream error: " e).
Proof.
  induction n as [|n IH]; intros it it1 xs e fuel stdout Hp He Hcase Hf;
    (destruct fuel as [|fuel]; [lia|]); simpl in Hp.
  - injection Hp as Hx Hit. subst. simpl. unfold stream_measurements_loop.
    destruct (next _) as [r it2]. simpl in He. subst r.
    destruct Hcase as [->|[d ->]]; simpl; [|done].
    by rewrite app_nil_r.
  - destruct (next it) as [[x|e'] it2] eqn:Hn; [|done].
    destruct (pull next n it2) as [[xs' it3]|] eqn:Hp'; [|done].
    injection Hp as <- ->.
    cbn [for_in stream_measurements_next].
    unfold stream_measurements_loop at 1. rewrite Hn.
    rewrite (IH it2 it1 xs' e fuel stdout Hp' He Hcase) by lia.
    done.
Qed.

(** The body of a generator starts at the first [next]: from then on it
    runs like the loop over the response iterator of the call. *)
Lemma status_start (self : DaqClient.t S) fuel stdout :
  for_in stream_status_next (Datatypes.S fuel) (stream_status self) stdout =
  for_in stream_status_next (Datatypes.S fuel)
    (Suspended (StreamStatus (stub self) mkStatusRequest)) stdout.
Proof. done. Qed.

Lemma measurement_start (self : DaqClient.t S) instrument fuel stdout :
  for_in (stream_measurements_next instrument) (Datatypes.S fuel)
    (stream_measurements self instrument) stdout =
  for_in (stream_measurements_next instrument) (Datatypes.S fuel)
    (Suspended
       (StreamMeasurements (stub self) (mkMeasurementRequest instrument)))
    stdout.
Proof. done. Qed.

(** The first [n] rounds of a loop over a generator whose response
    iterator returns [xs]. *)
Lemma status_prefix n : forall (it it1 : IS) xs stdout,
  pull next n it = Some (xs, it1) ->
  for_in stream_status_next n (Suspended it) stdout =
    (map status_dict xs, StillRunning, Suspended it1, stdout).
Proof.
  induction n as [|n IH]; intros it it1 xs stdout Hp; simpl in Hp.
  - by injection Hp as <- <-.
  - destruct (next it) as [[x|e] it2] eqn:Hn; [|done].
    destruct (pull next n it2) as [[xs' it3]|] eqn:Hp'; [|done].
    injection Hp as <- ->.
    cbn [for_in stream_status_next]. unfold stream_status_loop at 1.
    rewrite Hn. by rewrite (IH it2 it1 xs' stdout Hp').
Qed.

Lemma measurement_prefix instrument n : forall (it it1 : IM) xs stdout,
  pull next n it = Some (xs, it1) ->
  for_in (stream_measurements_next instrument) n (Suspended it) stdout =
    (map measurement_dict xs, StillRunning, Suspended it1, stdout).
Proof.
  induction n as [|n IH]; intros it it1 xs stdout Hp; simpl in Hp.
  - by injection Hp as <- <-.
  - destruct (next it) as [[x|e] it2] eqn:Hn; [|done].
    destruct (pull next n it2) as [[xs' it3]|] eqn:Hp'; [|done].
    injection Hp as <- ->.
    cbn [for_in stream_measurements_next].
    unfold stream_measurements_loop at 1.
    rewrite Hn. by rewrite (IH it2 it1 xs' stdout Hp').
Qed.

End DaqClientFacts.

(** ** A broken stream looks like a finished one *)

(** C3, as the code has it. When the response iterator of [stream_status]
    or [stream_measurements] raises [grpc.RpcError] after the events [xs],
    the generator prints one line with the error details and returns: the
    code that iterates over it receives the dictionaries of [xs] and then
    the normal end of the iteration, exactly what it receives when the
    server ends the stream after [xs]. The printed line is the only
    difference between the two runs. *)
Theorem C3_stream_failure_ends_the_iteration_normally :
  forall (S IS IM : Type)
         (stub_class : daq_pb2_grpc.ControlServiceStub S IS IM)
         (status_iterator : Iterator IS daq_pb2.SystemStatus)
         (measurement_iterator : Iterator IM daq_pb2.DataPoint),
  (forall (self : DaqClient.t S) n xs it1 e fuel stdout,
     pull next n
       (daq_pb2_grpc.StreamStatus (DaqClient.stub self)
          daq_pb2.mkStatusRequest) = Some (xs, it1) ->
     (next it1).1 = Raise e ->
     e = StopIteration \/ (exists details, e = RpcError details) ->
     (n < fuel)%nat ->
     let run :=
       for_in DaqClient.stream_status_next fuel
         (DaqClient.stream_status self) stdout in
     DaqClient.caller_view run = (map DaqClient.status_dict xs, Finished) /\
     DaqClient.printed run =
       stdout ++ DaqClient.logged "Stream error: " e) /\
  (forall (self : DaqClient.t S) instrument n xs it1 e fuel stdout,
     pull next n
       (daq_pb2_grpc.StreamMeasurements (DaqClient.stub self)
          (daq_pb2.mkMeasurementRequest instrument)) = Some (xs, it1) ->
     (next it1).1 = Raise e ->
     e = StopIteration \/ (exists details, e = RpcError details) ->
     (n < fuel)%nat ->
     let run :=
       for_in (DaqClient.stream_measurements_next instrument) fuel
         (DaqClient.stream_measurements self instrument) stdout in
     DaqClient.caller_view run =
       (map DaqClient.measurement_dict xs, Finished) /\
     DaqClient.printed run =
       stdout ++ DaqClient.logged "Measurement stream error: " e).
Proof.
  intros S IS IM stub_class status_iterator measurement_iterator. split.
  - intros self n xs it1 e fuel stdout Hp He Hcase Hf run. subst run.
    destruct fuel as [|fuel]; [lia|].
    rewrite status_start.
    by rewrite (status_run n _ it1 xs e (Datatypes.S fuel) stdout Hp He Hcase Hf).
  - intros self instrument n xs it1 e fuel stdout Hp He Hcase Hf run.
    subst run. destruct fuel as [|fuel]; [lia|].
    rewrite measurement_start.
    by rewrite (measurement_run instrument n _ it1 xs e (Datatypes.S fuel)
                  stdout Hp He Hcase Hf).
Qed.

Lemma C3_witness :
  DaqClient.caller_view
    (for_in DaqClient.stream_status_next 10
       (DaqClient.stream_status (Samples.client_of Samples.broken)) []) =
    (map DaqClient.status_dict [Samples.status 1; Samples.status 2],
     Finished) /\
  DaqClient.printed
    (for_in DaqClient.stream_status_next 10
       (DaqClient.stream_status (Samples.client_of Samples.broken)) []) =
    [] ++ DaqClient.logged "Stream error: " (RpcError "connection reset").
Proof.
  refine (proj1 (C3_stream_failure_ends_the_iteration_normally _ _ _ _ _ _)
            (Samples.client_of Samples.broken) 2%nat
            [Samples.status 1; Samples.status 2]
            [Raise (RpcError "connection reset")]
            (RpcError "connection reset") 10%nat [] eq_refl eq_refl _ _).
  - right. by exists "connection reset".
  - lia.
Defined.

(** C3, as stated, fails: the consumer of a stream whose connection breaks
    after two events gets exactly what the consumer of a stream that the
    server ends after the same two events gets. *)
Lemma C3_failure_is_not_distinguishable :
  DaqClient.caller_view
    (for_in DaqClient.stream_status_next 10
       (DaqClient.stream_status (Samples.client_of Samples.broken)) []) =
  DaqClient.caller_view
    (for_in DaqClient.stream_status_next 10
       (DaqClient.stream_status (Samples.client_of Samples.healthy)) []) /\
  DaqClient.caller_view
    (for_in (DaqClient.stream_measurements_next "stage") 10
       (DaqClient.stream_measurements (Samples.client_of Samples.broken)
          "stage") []) =
  DaqClient.caller_view
    (for_in (DaqClient.stream_measurements_next "stage") 10
       (DaqClient.stream_measurements (Samples.client_of Samples.healthy)
          "stage") []).
Proof. split; vm_compute; reflexivity. Qed.

(** What the two runs differ in. *)
Example broken_stream_prints :
  DaqClient.printed
    (for_in DaqClient.stream_status_next 10
       (DaqClient.stream_status (Samples.client_of Samples.broken)) []) =
    ["Stream error: connection reset"] /\
  DaqClient.printed
    (for_in DaqClient.stream_status_next 10
       (DaqClient.stream_status (Samples.client_of Samples.healthy)) []) = [].
Proof. split; vm_compute; reflexivity. Qed.

(** ** The measurement payload *)

Lemma measurement_dict_payload (data_point : daq_pb2.DataPoint) :
  let r := DaqClient.measurement_dict data_point in
  match daq_pb2.value data_point with
  | daq_pb2.Scalar x =>
      r !! "value" = Some (DaqClient.VFloat x) /\
      r !! "image" = Some DaqClient.VNone
  | daq_pb2.Image b =>
      r !! "value" = Some DaqClient.VNone /\
      r !! "image" = Some (DaqClient.VBytes b)
  | daq_pb2.NotSet =>
      r !! "value" = Some DaqClient.VNone /\
      r !! "image" = Some DaqClient.VNone
  end.
Proof.
  destruct data_point as [i ts [|x|b]];
    unfold DaqClient.measurement_dict, daq_pb2.HasField; simpl;
    split; by simplify_map_eq.
Qed.

Lemma measurement_dict_one_payload (data_point : daq_pb2.DataPoint) :
  DaqClient.measurement_dict data_point !! "value" = Some DaqClient.VNone \/
  DaqClient.measurement_dict data_point !! "image" = Some DaqClient.VNone.
Proof.
  pose proof (measurement_dict_payload data_point) as H. simpl in H.
  destruct (daq_pb2.value data_point); destruct H; auto.
Qed.

Section MeasurementStream.
Context {S IS IM : Type}.
Context {stub_class : daq_pb2_grpc.ControlServiceStub S IS IM}.
Context {measurement_iterator : Iterator IM daq_pb2.DataPoint}.

(** Whatever the generator yields is the dictionary of a data point. *)
Lemma yielded_measurement instrument (g g' : DaqClient.generator IM)
    stdout stdout' r :
  DaqClient.stream_measurements_next instrument g stdout =
    (Return r, g', stdout') ->
  exists data_point, r = DaqClient.measurement_dict data_point.
Proof.
  assert (Hloop : forall it,
    DaqClient.stream_measurements_loop it stdout = (Return r, g', stdout') ->
    exists data_point, r = DaqClient.measurement_dict data_point).
  { intros it. unfold DaqClient.stream_measurements_loop.
    destruct (next it) as [[dp|e] it'].
    - intros [= <- _ _]. by exists dp.
    - destruct (is_StopIteration e); [done|]. by destruct e. }
  destruct g as [self|it|]; simpl; [apply Hloop|apply Hloop|done].
Qed.

Lemma yielded_measurements instrument (P : gmap string DaqClient.pyvalue -> Prop) :
  (forall data_point, P (DaqClient.measurement_dict data_point)) ->
  forall fuel (g : DaqClient.generator IM) stdout,
  Forall P
    (DaqClient.caller_view
       (for_in (DaqClient.stream_measurements_next instrument) fuel g stdout)).1.
Proof.
  intros HP. induction fuel as [|fuel IH]; intros g stdout; simpl; [done|].
  destruct (DaqClient.stream_measurements_next instrument g stdout)
    as [[[r|e] g'] stdout'] eqn:Hstep.
  - destruct (yielded_measurement _ _ _ _ _ _ Hstep) as [dp ->].
    specialize (IH g' stdout').
    destruct (for_in _ fuel g' stdout') as [[[l re] g''] out''].
    simpl in *. by constructor.
  - by destruct (is_StopIteration e).
Qed.

End MeasurementStream.

(** C5. The dictionary built for a data point has [value] set and [image]
    [None] when the payload is a scalar, [image] set and [value] [None]
    when it is an image, and both [None] when it is neither; every
    dictionary that [stream_measurements] yields has at least one of the
    two entries [None]; and the dictionaries it yields are those of the
    data points it reads, one for one and in order: when the response
    iterator of the call returns the data points [xs], the loop over the
    generator receives first the dictionaries built for [xs]. *)
Theorem C5_measurement_has_at_most_one_payload :
  (forall data_point : daq_pb2.DataPoint,
     let r := DaqClient.measurement_dict data_point in
     match daq_pb2.value data_point with
     | daq_pb2.Scalar x =>
         r !! "value" = Some (DaqClient.VFloat x) /\
         r !! "image" = Some DaqClient.VNone
     | daq_pb2.Image b =>
         r !! "value" = Some DaqClient.VNone /\
         r !! "image" = Some (DaqClient.VBytes b)
     | daq_pb2.NotSet =>
         r !! "value" = Some DaqClient.VNone /\
         r !! "image" = Some DaqClient.VNone
     end) /\
  (forall (S IS IM : Type)
          (stub_class : daq_pb2_grpc.ControlServiceStub S IS IM)
          (measurement_iterator : Iterator IM daq_pb2.DataPoint)
          (self : DaqClient.t S) instrument fuel stdout,
     Forall (fun r : gmap string DaqClient.pyvalue =>
               r !! "value" = Some DaqClient.VNone \/
               r !! "image" = Some DaqClient.VNone)
       (DaqClient.caller_view
          (for_in (DaqClient.stream_measurements_next instrument) fuel
             (DaqClient.stream_measurements self instrument) stdout)).1) /\
  (forall (S IS IM : Type)
          (stub_class : daq_pb2_grpc.ControlServiceStub S IS IM)
          (measurement_iterator : Iterator IM daq_pb2.DataPoint)
          (self : DaqClient.t S) instrument n m xs it1 stdout,
     pull next n
       (daq_pb2_grpc.StreamMeasurements (DaqClient.stub self)
          (daq_pb2.mkMeasurementRequest instrument)) = Some (xs, it1) ->
     exists rest,
       (DaqClient.caller_view
          (for_in (DaqClient.stream_measurements_next instrument) (n + m)
             (DaqClient.stream_measurements self instrument) stdout)).1 =
         map DaqClient.measurement_dict xs ++ rest).
Proof.
  split; [apply measurement_dict_payload|]. split.
  - intros. apply yielded_measurements, measurement_dict_one_payload.
  - intros S IS IM stub_class measurement_iterator self instrument n m xs it1
      stdout Hp.
    destruct n as [|n].
    + injection Hp as <- _. by eexists.
    + cbn [Nat.add]. rewrite measurement_start.
      change (Datatypes.S (n + m)) with (Datatypes.S n + m)%nat.
      rewrite (for_in_continue _ _ m _ _ _ _ _
                 (measurement_prefix instrument _ _ _ _ stdout Hp)).
      destruct (for_in _ m _ stdout) as [[[l2 r2] g2] out2]. by exists l2.
Qed.

Lemma C5_witness :
  exists rest,
    (DaqClient.caller_view
       (for_in (DaqClient.stream_measurements_next "stage") (2 + 5)
          (DaqClient.stream_measurements (Samples.client_of Samples.healthy)
             "stage") [])).1 =
      map DaqClient.measurement_dict
        [Samples.scalar_point 1; Samples.image_point 2] ++ rest.
Proof.
  exact (proj2 (proj2 C5_measurement_has_at_most_one_payload) _ _ _ _ _
           (Samples.client_of Samples.healthy) "stage" 2%nat 5%nat
           [Samples.scalar_point 1; Samples.image_point 2]
           [Return (Samples.empty_point 3)] [] eq_refl).
Defined.

(** The three kinds of data point, streamed. *)
Example measurement_stream :
  (DaqClient.caller_view
     (for_in (DaqClient.stream_measurements_next "stage") 10
        (DaqClient.stream_measurements (Samples.client_of Samples.healthy)
           "stage") [])).1 =
  [ {[ "instrument" := DaqClient.VStr "stage"; "timestamp" := DaqClient.VInt 1;
       "value" := DaqClient.VFloat (daq_pb2.F64 1);
       "image" := DaqClient.VNone ]};
    {[ "instrument" := DaqClient.VStr "camera";
       "timestamp" := DaqClient.VInt 2;
       "value" := DaqClient.VNone;
       "image" := DaqClient.VBytes [x0a; x0b] ]};
    {[ "instrument" := DaqClient.VStr "stage"; "timestamp" := DaqClient.VInt 3;
       "value" := DaqClient.VNone; "image" := DaqClient.VNone ]} ].
Proof. vm_compute. reflexivity. Qed.

(** ** Uploading a script *)

(** C7. [upload_script] makes exactly one [UploadScript] call (the stub is
    left as that one call leaves it, and one request is added to the log),
    whatever the outcome. When the call completes with a response, the
    result is the response's [script_id] exactly when [success] is true;
    when [success] is false the result is a [RuntimeError] whose message
    ends with the response's [error_message]. *)
Theorem C7_upload_script_result :
  forall (S IS IM : Type)
         (stub_class : daq_pb2_grpc.ControlServiceStub S IS IM)
         (self : DaqClient.t S) script_content name,
  let request := daq_pb2.mkUploadRequest script_content name in
  let reply := daq_pb2_grpc.UploadScript (DaqClient.stub self) request in
  let out := DaqClient.upload_script self script_content name in
  DaqClient.sent out.2 =
    DaqClient.sent self ++ [DaqClient.CallUploadScript request] /\
  DaqClient.stub out.2 = reply.2 /\
  forall response, reply.1 = Return response ->
    (daq_pb2.success response = true ->
       out.1 = Return (daq_pb2.script_id response)) /\
    (daq_pb2.success response = false ->
       out.1 =
         Raise (RuntimeError
                  ("Upload failed: " +:+ daq_pb2.error_message response))) /\
    (out.1 = Return (daq_pb2.script_id response) <->
       daq_pb2.success response = true).
Proof.
  intros S IS IM stub_class self script_content name request reply out.
  subst out reply. unfold DaqClient.upload_script. fold request.
  destruct (daq_pb2_grpc.UploadScript (DaqClient.stub self) request)
    as [[response|e] stub'] eqn:Hcall; simpl.
  - destruct (daq_pb2.success response) eqn:Hs; simpl;
      (split; [done|]); (split; [done|]);
      intros response' [= <-]; rewrite Hs; by repeat split.
  - destruct e; simpl; by repeat split.
Qed.

Lemma C7_witness :
  (DaqClient.upload_script (Samples.client_of Samples.broken)
     "stage.move_abs(" "experiment").1 =
    Raise (RuntimeError ("Upload failed: " +:+ "syntax error")) /\
  (DaqClient.upload_script (Samples.client_of Samples.healthy)
     "stage.move_abs(5.0);" "experiment").1 = Return "script-1".
Proof.
  split.
  - exact (proj1 (proj2 (proj2 (proj2
             (C7_upload_script_result _ _ _ _
                (Samples.client_of Samples.broken)
                "stage.move_abs(" "experiment"))
             (daq_pb2.mkUploadResponse false "" "syntax error") eq_refl))
             eq_refl).
  - exact (proj1 (proj2 (proj2
             (C7_upload_script_result _ _ _ _
                (Samples.client_of Samples.healthy)
                "stage.move_abs(5.0);" "experiment"))
             (daq_pb2.mkUploadResponse true "script-1" "") eq_refl)
             eq_refl).
Defined.

(** One call each, also when the daemon cannot be reached. *)
Example upload_calls_once :
  Samples.upload_calls
    (DaqClient.stub
       (DaqClient.upload_script (Samples.client_of Samples.broken)
          "stage.move_abs(" "experiment").2) = 1%nat /\
  Samples.upload_calls
    (DaqClient.stub
       (DaqClient.upload_script (Samples.client_of Samples.unreachable)
          "x" "experiment").2) = 1%nat /\
  (DaqClient.upload_script (Samples.client_of Samples.unreachable)
     "x" "experiment").1 =
    Raise (RuntimeError "gRPC error during upload: failed to connect").
Proof. vm_compute. by repeat split. Qed.

(** ** Decoding a frame *)

Lemma format_map_recognized fmt bps :
  Frame.bytes_per_sample fmt = Some bps ->
  fmt ∈ Frame.recognized /\
  exists dtype, Frame.format_map !! fmt = Some dtype /\ np.itemsize dtype = bps.
Proof.
  unfold Frame.bytes_per_sample, Frame.recognized.
  destruct (String.eqb_spec fmt "u8") as [->|_].
  { intros [= <-]. split; [set_solver|]. by exists np.uint8. }
  destruct (String.eqb_spec fmt "u16_le") as [->|_].
  { intros [= <-]. split; [set_solver|]. by exists np.uint16. }
  destruct (String.eqb_spec fmt "u16_be") as [->|_].
  { intros [= <-]. split; [set_solver|]. by exists np.uint16_be. }
  destruct (String.eqb_spec fmt "f32_le") as [->|_]; [|done].
  intros [= <-]. split; [set_solver|]. by exists np.float32.
Qed.

Lemma format_map_unrecognized fmt :
  fmt ∉ Frame.recognized -> Frame.format_map !! fmt = None.
Proof.
  unfold Frame.recognized, Frame.format_map. intros Hn.
  rewrite !lookup_insert_ne, lookup_singleton_ne; [done|..];
    intros <-; apply Hn; set_solver.
Qed.

Lemma itemsize_pos dtype : 0 < np.itemsize dtype.
Proof. by destruct dtype. Qed.

(** The element [(r, c)] of a row-major [h]x[w] view lies inside the
    buffer. *)
Lemma item_in_buffer (data : list byte) (w h bps r c : Z) :
  0 < bps -> Z.of_nat (length data) = w * h * bps ->
  0 <= r < h -> 0 <= c < w ->
  length (take (Z.to_nat bps)
            (drop (Z.to_nat (r * w + c) * Z.to_nat bps)%nat data)) =
    Z.to_nat bps.
Proof.
  intros Hb Hl Hr Hc. rewrite length_take, length_drop.
  assert (Hrow : (r + 1) * w <= h * w)
    by (apply Z.mul_le_mono_nonneg_r; lia).
  assert (Hin : (r * w + c + 1) * bps <= w * h * bps)
    by (apply Z.mul_le_mono_nonneg_r; lia).
  assert (Hoff : 0 <= r * w + c).
  { apply Z.add_nonneg_nonneg; [apply Z.mul_nonneg_nonneg|]; lia. }
  rewrite <- Hl in Hin.
  rewrite <- (Z2Nat.id (r * w + c)) in Hin by done.
  rewrite <- (Z2Nat.id bps) in Hin by lia.
  generalize dependent (Z.to_nat (r * w + c)).
  generalize dependent (Z.to_nat bps).
  intros b k Hin. apply Nat.min_l.
  assert ((k * b + b <= length data)%nat) by nia. lia.
Qed.

Lemma fits_intp_nonneg (n : Z) :
  0 <= n -> n <= np.intp_max -> np.fits_intp n = true.
Proof.
  intros H0 Hmax. unfold np.fits_intp.
  apply andb_true_iff. split; apply Z.leb_le; [|done].
  assert (0 <= 2 ^ 63) by (apply Z.pow_nonneg; lia). lia.
Qed.

(** Each side of an array that is not too big fits an [intptr]. *)
Lemma array_bytes_sides (item h w : Z) :
  0 < item -> 0 <= h -> 0 <= w ->
  np.array_bytes item [h; w] <= np.intp_max ->
  h <= np.intp_max /\ w <= np.intp_max.
Proof.
  intros Hi Hh Hw. unfold np.array_bytes. cbn [fold_right].
  assert (0 <= np.intp_max) by (unfold np.intp_max; lia).
  generalize dependent np.intp_max. intros M.
  destruct (Z.eqb_spec h 0) as [->|Hh0], (Z.eqb_spec w 0) as [->|Hw0];
    intros Hb HM.
  - lia.
  - assert (w <= w * item) by nia. lia.
  - assert (h <= h * item) by nia. lia.
  - assert (Hone : 1 <= w * item) by nia.
    assert (w <= w * item) by nia.
    pose proof (Z.mul_le_mono_nonneg_l 1 (w * item) h Hh Hone).
    assert (Hh1 : 1 <= h) by lia.
    pose proof (Z.mul_le_mono_nonneg_r 1 h (w * item) ltac:(lia) Hh1). lia.
Qed.

(** [reshape] to non-negative sides of an array that is not too big: it
    is the product of the sides that decides. *)
Lemma reshape_nonneg (a : np.ndarray) (h w : Z) :
  0 <= h -> 0 <= w ->
  np.array_bytes (np.itemsize (np.dtype_of a)) [h; w] <= np.intp_max ->
  np.reshape a h w =
    if h * w =? np.size a
    then Return (np.mk (np.dtype_of a) [h; w] (np.buffer a))
    else Raise (np.size_mismatch (np.size a) h w).
Proof.
  intros Hh Hw Hb.
  destruct (array_bytes_sides _ h w (itemsize_pos _) Hh Hw Hb) as [Hhm Hwm].
  unfold np.reshape.
  rewrite (fits_intp_nonneg h Hh Hhm), (fits_intp_nonneg w Hw Hwm).
  cbn [andb negb].
  destruct (Z.ltb_spec h 0) as [|_]; [lia|].
  destruct (Z.ltb_spec w 0) as [|_]; [lia|]. cbn [andb].
  destruct (h * w =? np.size a); [|done].
  unfold np.view.
  by destruct (Z.leb_spec (np.array_bytes (np.itemsize (np.dtype_of a)) [h; w])
                 np.intp_max) as [_|]; [|lia].
Qed.

(** [to_numpy] on a frame with pixel data and a recognized format, when
    numpy is there: [np.frombuffer], then [reshape]. *)
Lemma to_numpy_steps (f : Frame.t) data bps :
  Frame.pixel_data f = Some data ->
  Frame.bytes_per_sample (Frame.pixel_format f) = Some bps ->
  exists dtype,
    np.itemsize dtype = bps /\
    Frame.to_numpy true f =
      (arr ← np.frombuffer data dtype;
       np.reshape arr (Frame.height f) (Frame.width f)).
Proof.
  intros Hdata Hfmt.
  destruct (format_map_recognized _ _ Hfmt) as (_ & dtype & Hmap & Hsize).
  exists dtype. split; [done|].
  unfold Frame.to_numpy. cbn [negb]. by rewrite Hdata, Hmap.
Qed.

(** C4, as the code has it. In an interpreter where [import numpy]
    succeeds: for a frame with a recognized pixel format, non-negative
    width and height, an array that is not too big for numpy
    ([bytes_per_sample] times the sides that are not zero is at most
    2^63 - 1) and pixel data of exactly
    [width * height * bytes_per_sample] bytes, [to_numpy] returns a
    two-dimensional array of shape [(height, width)] over the frame's
    bytes, with [width * height] elements and no further dimension, whose
    element [(r, c)] is the [bytes_per_sample] bytes at offset
    [(r * width + c) * bytes_per_sample] (row-major); when [pixel_data] is
    [None] or the pixel format is not recognized it raises [ValueError].
    Where [import numpy] fails, it raises [ImportError] for every frame. *)
Theorem C4_to_numpy_decodes_row_major :
  forall f : Frame.t,
  (forall data bps,
     Frame.pixel_data f = Some data ->
     Frame.bytes_per_sample (Frame.pixel_format f) = Some bps ->
     0 <= Frame.width f -> 0 <= Frame.height f ->
     np.array_bytes bps [Frame.height f; Frame.width f] <= np.intp_max ->
     Z.of_nat (length data) = Frame.width f * Frame.height f * bps ->
     exists arr,
       Frame.to_numpy true f = Return arr /\
       np.shape arr = [Frame.height f; Frame.width f] /\
       np.ndim arr = 2%nat /\
       np.size arr = Frame.width f * Frame.height f /\
       np.buffer arr = data /\
       np.itemsize (np.dtype_of arr) = bps /\
       forall r c,
         0 <= r < Frame.height f -> 0 <= c < Frame.width f ->
         exists item,
           np.item2 arr r c = Some item /\
           item =
             take (Z.to_nat bps)
               (drop (Z.to_nat ((r * Frame.width f + c) * bps)) data) /\
           Z.of_nat (length item) = bps) /\
  (Frame.pixel_data f = None ->
     exists msg, Frame.to_numpy true f = Raise (ValueError msg)) /\
  (Frame.pixel_format f ∉ Frame.recognized ->
     exists msg, Frame.to_numpy true f = Raise (ValueError msg)) /\
  (exists msg, Frame.to_numpy false f = Raise (ImportError msg)).
Proof.
  intros f. split; [|split; [|split]].
  - intros data bps Hdata Hfmt Hw Hh Hbig Hlen.
    destruct (to_numpy_steps f data bps Hdata Hfmt) as (dtype & Hsize & ->).
    pose proof (itemsize_pos dtype) as Hpos. rewrite Hsize in Hpos.
    unfold np.frombuffer. rewrite Hsize, Hlen.
    rewrite Z.mod_mul by lia. cbn [Z.eqb mbind result_bind].
    rewrite Z.div_mul by lia.
    rewrite reshape_nonneg by (cbn [np.dtype_of]; rewrite ?Hsize; done).
    unfold np.size. cbn [np.shape np.dtype_of np.buffer fold_right].
    replace (Frame.height f * Frame.width f =?
             Frame.width f * Frame.height f * 1) with true
      by (symmetry; apply Z.eqb_eq; lia).
    eexists. split; [done|]. cbn [np.shape np.buffer np.dtype_of].
    split; [done|]. split; [done|].
    split; [unfold np.size; cbn [np.shape fold_right]; lia|].
    split; [done|]. split; [done|].
    intros r c Hr Hc. unfold np.item2. cbn [np.shape np.buffer np.dtype_of].
    replace ((0 <=? r) && (r <? Frame.height f) && (0 <=? c) &&
             (c <? Frame.width f)) with true
      by (symmetry; rewrite !andb_true_iff; lia).
    rewrite Hsize.
    assert (Hoff : (Z.to_nat (r * Frame.width f + c) * Z.to_nat bps)%nat =
                   Z.to_nat ((r * Frame.width f + c) * bps)) by nia.
    eexists. split; [done|]. rewrite Hoff. split; [done|].
    rewrite <- Hoff.
    rewrite (item_in_buffer data (Frame.width f) (Frame.height f) bps r c)
      by done.
    lia.
  - intros Hdata. unfold Frame.to_numpy. simpl. rewrite Hdata. eauto.
  - intros Hfmt. unfold Frame.to_numpy. simpl.
    destruct (Frame.pixel_data f); [|eauto].
    rewrite (format_map_unrecognized _ Hfmt). eauto.
  - unfold Frame.to_numpy. simpl. eauto.
Qed.

Lemma C4_witness :
  exists arr,
    Frame.to_numpy true Samples.frame_u16 = Return arr /\
    np.shape arr = [2; 3] /\
    np.ndim arr = 2%nat /\
    np.size arr = 3 * 2 /\
    np.buffer arr =
      [x00; x01; x00; x02; x00; x03; x00; x04; x00; x05; x00; x06] /\
    np.itemsize (np.dtype_of arr) = 2 /\
    forall r c,
      0 <= r < 2 -> 0 <= c < 3 ->
      exists item,
        np.item2 arr r c = Some item /\
        item =
          take (Z.to_nat 2)
            (drop (Z.to_nat ((r * 3 + c) * 2))
               [x00; x01; x00; x02; x00; x03; x00; x04; x00; x05; x00; x06]) /\
        Z.of_nat (length item) = 2.
Proof.
  refine (proj1 (C4_to_numpy_decodes_row_major Samples.frame_u16)
            _ 2 eq_refl eq_refl _ _ _ eq_refl); vm_compute; discriminate.
Defined.

(** The element in row 1, column 2 of the sample frame. *)
Example frame_u16_item :
  (arr ← Frame.to_numpy true Samples.frame_u16; mret (np.item2 arr 1 2)) =
    Return (Some [x00; x06]).
Proof. reflexivity. Qed.

(** C4, as stated, fails: without numpy [to_numpy] raises [ImportError],
    not [ValueError], on a frame without pixel data, and it does not
    succeed on a well-formed frame; and with numpy it rejects a buffer of
    the stated length when both dimensions are negative, and when a side
    does not fit numpy's index type (height 2^63, width 0, no bytes). *)
Lemma C4_to_numpy_can_fail_otherwise :
  Frame.to_numpy false Samples.frame_without_pixels =
    Raise (ImportError "numpy is required for to_numpy()") /\
  Frame.to_numpy false (Samples.frame 1) =
    Raise (ImportError "numpy is required for to_numpy()") /\
  (Frame.bytes_per_sample (Frame.pixel_format (Samples.frame 1)) = Some 1 /\
   Frame.pixel_data (Samples.frame 1) = Some [x01; x02] /\
   Z.of_nat (length [x01; x02]) =
     Frame.width (Samples.frame 1) * Frame.height (Samples.frame 1) * 1) /\
  Frame.to_numpy true Samples.frame_with_negative_sides =
    Raise (ValueError "can only specify one unknown dimension") /\
  Z.of_nat (length [x01; x02]) =
    Frame.width Samples.frame_with_negative_sides *
    Frame.height Samples.frame_with_negative_sides * 1 /\
  Frame.to_numpy true Samples.frame_with_a_huge_side =
    Raise (ValueError "Maximum allowed dimension exceeded") /\
  (Frame.bytes_per_sample (Frame.pixel_format Samples.frame_with_a_huge_side) =
     Some 1 /\
   Frame.pixel_data Samples.frame_with_a_huge_side = Some [] /\
   Z.of_nat (length (@nil byte)) =
     Frame.width Samples.frame_with_a_huge_side *
     Frame.height Samples.frame_with_a_huge_side * 1).
Proof. by repeat split. Qed.

(** * Further properties of the stream classes *)

Section FrameStreamCalls.
Context {C I U : Type}.
Context {client_frames : AsyncClient.StreamFrames C I}.
Context {upstream : AsyncIterator I Frame.raw}.
Implicit Types (s : FrameStream.t C I U) (w : world U Frame.t).

Import FrameStream.

(** One [__anext__], whatever happens in it, leaves the constructor
    arguments alone. *)
Lemma anext_keeps_arguments s w :
  __aenter__ (__anext__ s w).1.2 = __aenter__ s.
Proof.
  unfold __anext__. destruct s as [c d p mx cb n [] [it|]]; simpl; try done.
  destruct (cap_reached _); [done|].
  destruct (anext it) as [[raw|e] it1]; simpl.
  - destruct (Frame.of_raw raw) as [f|e]; [|done].
    destruct cb as [[[] cb]|]; [|done|done]. simpl.
    by destruct (invoke _ f w) as [[[]|e] w'].
  - by destruct (is_StopAsyncIteration e).
Qed.

(** With a callback that returns normally, one [__anext__] adds one to the
    frame count exactly when it returns a frame. *)
Lemma anext_counts s w :
  quiet (_on_frame s) ->
  _frame_count (__anext__ s w).1.2 =
    _frame_count s + returned [Got (__anext__ s w).1.1] /\
  _on_frame (__anext__ s w).1.2 = _on_frame s.
Proof.
  intros Hq. unfold __anext__.
  destruct s as [c d p mx cb n [] [it|]]; simpl in *;
    try (split; [lia|done]).
  destruct (cap_reached _); [split; [simpl; lia|done]|].
  destruct (anext it) as [[raw|e] it1]; simpl.
  - destruct (Frame.of_raw raw) as [f|e]; [|split; [simpl; lia|done]].
    destruct cb as [[[] cb]|]; [|split; [simpl; lia|done]..]. simpl.
    unfold invoke. specialize (Hq _ eq_refl eq_refl f (user w)).
    cbn [__call__] in *.
    destruct (cb f (user w)) as [r u1]. simpl in Hq. subst r. simpl.
    split; [lia|done].
  - destruct (is_StopAsyncIteration e); simpl; split; (lia || done).
Qed.

Lemma returned_cons {E} (o : observed E) obs :
  returned (o :: obs) = returned [o] + returned obs.
Proof. destruct o as [[e|e]|b]; simpl; lia. Qed.

(** The frame count is the number of frames handed out: over any sequence
    of [__anext__] and [__aexit__] calls on a stream whose callback (if
    any) returns normally, [frame_count] grows by the number of calls that
    returned a frame; calls that raise, for whatever reason, and
    [__aexit__] leave it alone. *)
Theorem frame_count_counts_returned_frames cs : forall s w,
  quiet (_on_frame s) ->
  frame_count (run_calls __anext__ __aexit__ cs s w).1.2 =
    frame_count s +
    returned (run_calls __anext__ __aexit__ cs s w).1.1.
Proof.
  unfold frame_count.
  induction cs as [|[|exc] cs IH]; intros s w Hq; cbn [run_calls].
  - simpl. lia.
  - destruct (anext_counts s w Hq) as [Hc Hcb].
    destruct (__anext__ s w) as [[r s1] w1]. simpl in Hc, Hcb.
    rewrite <- Hcb in Hq. specialize (IH s1 w1 Hq).
    destruct (run_calls __anext__ __aexit__ cs s1 w1) as [[obs s2] w2].
    cbn [fst snd] in *. rewrite (returned_cons (Got r)), IH, Hc.
    destruct r; simpl; lia.
  - assert (Hq' : quiet (_on_frame (__aexit__ s exc).2)) by (by destruct s).
    specialize (IH (__aexit__ s exc).2 w Hq').
    destruct (__aexit__ s exc) as [b s1] eqn:Hex. cbn [snd] in IH.
    destruct (run_calls __anext__ __aexit__ cs s1 w) as [[obs s2] w2].
    simpl in *. rewrite IH.
    assert (_frame_count s1 = _frame_count s)
      by (destruct s; injection Hex as _ <-; done).
    lia.
Qed.

(** A used stream can be entered again: no sequence of [__anext__] and
    [__aexit__] calls changes what [__aenter__] does next, which is to
    open a new iterator for the constructor's arguments and to start
    counting from zero, with the same cap and callback. *)
Theorem aenter_after_any_calls cs : forall s w,
  __aenter__ (run_calls __anext__ __aexit__ cs s w).1.2 = __aenter__ s.
Proof.
  induction cs as [|[|exc] cs IH]; intros s w; cbn [run_calls]; [done| |].
  - pose proof (anext_keeps_arguments s w) as Hk.
    destruct (__anext__ s w) as [[r s1] w1]. simpl in Hk.
    specialize (IH s1 w1).
    destruct (run_calls __anext__ __aexit__ cs s1 w1) as [[obs s2] w2].
    simpl in *. by rewrite IH.
  - specialize (IH (__aexit__ s exc).2 w).
    destruct (__aexit__ s exc) as [b s1] eqn:Hex. cbn [snd] in IH.
    destruct (run_calls __anext__ __aexit__ cs s1 w) as [[obs s2] w2].
    simpl in *. rewrite IH. destruct s. by injection Hex as _ <-.
Qed.

End FrameStreamCalls.

Section FrameStreamEdges.
Context {C I U : Type}.
Context {client_frames : AsyncClient.StreamFrames C I}.
Context {upstream : AsyncIterator I Frame.raw}.
Implicit Types (s : FrameStream.t C I U) (w : world U Frame.t).

Import FrameStream.

(** A negative cap lets nothing through: a stream opened with
    [max_frames < 0] ends every loop over it at once; no frame is handed
    over, no callback is called and the upstream iterator is never asked. *)
Theorem negative_cap_stops_at_once (body : Frame.t -> U -> U) s w m fuel :
  _max_frames s = Some m -> m < 0 ->
  async_for __anext__ body (S fuel) (__aenter__ s) w =
    (Finished, __aenter__ s, w).
Proof.
  intros Hm Hneg. apply async_for_stop, anext_stopped. right. right.
  destruct (aenter_fields s) as (_ & _ & Hc & Hmx & _).
  unfold cap_reached, truthy_int. rewrite Hmx, Hm, Hc.
  apply andb_true_iff. split; [apply negb_true_iff|]; lia.
Qed.

(** What the constructor call of [__anext__] does with a dictionary: it
    builds the frame when all seven entries are there, and otherwise
    raises [KeyError] for the first entry that is missing, in the order
    [device_id], [frame_number], [width], [height], [timestamp_ns],
    [pixel_data], [pixel_format]. *)
Lemma of_raw_missing_keys (raw : Frame.raw) :
  match missing_keys raw with
  | [] => exists f, Frame.of_raw raw = Return f /\ Frame.to_raw f = raw
  | key :: _ => Frame.of_raw raw = Raise (KeyError key)
  end.
Proof.
  destruct raw as [[d|] [n|] [wd|] [h|] [ts|] [px|] [fmt|]]; simpl; try done.
  by eexists.
Qed.

(** An incomplete dictionary costs one upstream item and nothing else:
    [__anext__] raises [KeyError] for the first missing key; the frame
    count, the callback and the consumer's world are untouched, and the
    stream stays open on the rest of the upstream iterator. *)
Theorem incomplete_frame_raises_key_error s w it it' raw key keys :
  _active s = true -> _iterator s = Some it -> cap_reached s = false ->
  anext it = (Return raw, it') -> missing_keys raw = key :: keys ->
  __anext__ s w = (Raise (KeyError key), advanced 0 it' s, w) /\
  is_active (advanced 0 it' s) = true /\
  frame_count (advanced 0 it' s) = frame_count s.
Proof.
  intros Ha Hi Hc Hn Hk.
  pose proof (of_raw_missing_keys raw) as Hraw. rewrite Hk in Hraw.
  split; [|split].
  - unfold __anext__. rewrite Ha, Hi, Hc, Hn, Hraw. simpl.
    f_equal. f_equal. destruct s. unfold advanced, set_frame_count,
      set_iterator. simpl. f_equal. lia.
  - by destruct s.
  - destruct s. unfold frame_count. simpl. lia.
Qed.

(** The state of a stream whose upstream iterator has just ended. *)
Lemma anext_exhausted s w it it' :
  _active s = true -> _iterator s = Some it -> cap_reached s = false ->
  anext it = (Raise StopAsyncIteration, it') ->
  __anext__ s w =
    (Raise StopAsyncIteration, set_active false (advanced 0 it' s), w).
Proof.
  intros Ha Hi Hc Hn. unfold __anext__. rewrite Ha, Hi, Hc, Hn. simpl.
  do 2 f_equal. destruct s. unfold advanced, set_active, set_frame_count,
    set_iterator. simpl. f_equal. lia.
Qed.

Lemma inactive_calls cs : forall s w,
  _active s = false ->
  (run_calls __anext__ __aexit__ cs s w).1.1 = map closed_answer cs /\
  (run_calls __anext__ __aexit__ cs s w).2 = w /\
  _active (run_calls __anext__ __aexit__ cs s w).1.2 = false /\
  (_iterator (run_calls __anext__ __aexit__ cs s w).1.2 = _iterator s \/
   _iterator (run_calls __anext__ __aexit__ cs s w).1.2 = None).
Proof.
  induction cs as [|[|exc] cs IH]; intros s w Ha; cbn [run_calls].
  - simpl. auto.
  - rewrite anext_stopped by (by left).
    specialize (IH s w Ha).
    destruct (run_calls __anext__ __aexit__ cs s w) as [[obs s2] w2].
    simpl in *. destruct IH as (-> & -> & ? & ?). auto.
  - destruct (__aexit__ s exc) as [b s1] eqn:Hex.
    assert (Hs1 : b = false /\ _active s1 = false /\ _iterator s1 = None)
      by (destruct s; injection Hex as <- <-; done).
    destruct Hs1 as (-> & Ha1 & Hi1).
    specialize (IH s1 w Ha1).
    destruct (run_calls __anext__ __aexit__ cs s1 w) as [[obs s2] w2].
    simpl in *. destruct IH as (-> & -> & ? & [Hit|Hit]);
      rewrite ?Hi1 in Hit; auto.
Qed.

(** The end of the upstream iterator is final: the [__anext__] that meets
    [StopAsyncIteration] upstream passes it on and marks the stream
    inactive, and from then on, without any [__aexit__], every [__anext__]
    raises [StopAsyncIteration] at once: the exhausted iterator is never
    asked again, and the frame count and the consumer's world stay as
    they are. *)
Theorem exhausted_stream_is_never_asked_again s w it it' cs :
  _active s = true -> _iterator s = Some it -> cap_reached s = false ->
  anext it = (Raise StopAsyncIteration, it') ->
  exists s1,
    __anext__ s w = (Raise StopAsyncIteration, s1, w) /\
    is_active s1 = false /\ frame_count s1 = frame_count s /\
    _iterator s1 = Some it' /\
    (run_calls __anext__ __aexit__ cs s1 w).1.1 = map closed_answer cs /\
    (run_calls __anext__ __aexit__ cs s1 w).2 = w /\
    (_iterator (run_calls __anext__ __aexit__ cs s1 w).1.2 = Some it' \/
     _iterator (run_calls __anext__ __aexit__ cs s1 w).1.2 = None).
Proof.
  intros Ha Hi Hc Hn. eexists.
  split; [by apply (anext_exhausted s w it it')|].
  assert (Hin : _active (set_active false (advanced 0 it' s)) = false)
    by (by destruct s).
  destruct (inactive_calls cs _ w Hin) as (Hobs & Hw & _ & Hit).
  split; [by destruct s|]. split; [destruct s; unfold frame_count; simpl; lia|].
  split; [by destruct s|]. split; [done|]. split; [done|].
  destruct Hit as [Hit|Hit]; [left|by right].
  rewrite Hit. by destruct s.
Qed.

(** A failure of the upstream iterator is the caller's to see: when the
    upstream [__anext__] raises anything but [StopAsyncIteration] after [k]
    frames, the loop has handed over these [k] frames and is left by that
    exception as it leaves the coroutine [__anext__]: the very exception,
    except that a [StopIteration] arrives as the [RuntimeError] every
    coroutine makes of it. The stream stays active with its count at [k]
    more, holding the upstream iterator as the failure left it, so that a
    new loop goes on from there. *)
Theorem upstream_failure_reaches_the_caller (body : Frame.t -> U -> U)
    k m s w it it1 it2 raws fs e :
  _active s = true -> _iterator s = Some it -> quiet (_on_frame s) ->
  room (Z.of_nat k + 1) s ->
  pull anext k it = Some (raws, it1) -> decoded Frame.of_raw raws fs ->
  anext it1 = (Raise e, it2) -> is_StopAsyncIteration e = false ->
  exists u',
    async_for __anext__ body (k + S m) s w =
      (Propagated (leave_coroutine e), advanced (Z.of_nat k) it2 s,
       World u' (trace w ++ paired_trace (_on_frame s) fs)) /\
    is_active (advanced (Z.of_nat k) it2 s) = true /\
    _iterator (advanced (Z.of_nat k) it2 s) = Some it2.
Proof.
  intros Ha Hi Hq Hr Hp Hd Hn He.
  assert (Hrk : room (Z.of_nat k) s).
  { revert Hr. unfold room. destruct (_max_frames s); [|done].
    intros [?|?]; [by left|right; lia]. }
  destruct (frames_run body k s w it it1 raws fs Ha Hi Hq Hrk Hp Hd)
    as [u' Hrun].
  exists u'. split; [|by destruct s].
  rewrite (async_for_continue _ _ _ _ _ _ _ _ Hrun).
  destruct (advanced_fields (Z.of_nat k) it1 s) as (Ha1 & Hi1 & _ & Hm1 & Hc1).
  assert (Hcap : cap_reached (advanced (Z.of_nat k) it1 s) = false).
  { apply (room_cap_reached _ 1); [lia|].
    revert Hr. unfold room. rewrite Hm1, Hc1.
    destruct (_max_frames s); [|done]. intros [?|?]; [by left|right; lia]. }
  cbn [async_for]. unfold __anext__ at 1.
  rewrite Ha1, Ha, Hi1, Hcap, Hn, He. simpl.
  rewrite (leave_coroutine_not_stop _ He).
  by destruct s.
Qed.

End FrameStreamEdges.

(** ** [DeviceStateStream] counts what it returns *)

Section DeviceStateStreamCalls.
Context {C I Upd U : Type}.
Context {client_states : AsyncClient.StreamDeviceState C I}.
Context {upstream : AsyncIterator I Upd}.
Implicit Types (s : DeviceStateStream.t C I) (w : world U Upd).

Import DeviceStateStream.

Lemma dev_anext_counts s :
  _update_count (__anext__ s).2 =
    _update_count s + returned [Got (__anext__ s).1].
Proof.
  unfold __anext__. destruct s as [c ids hz snap n [] [it|]]; simpl;
    try lia.
  destruct (anext it) as [[u|e] it1]; simpl; [lia|].
  destruct (is_StopAsyncIteration e); simpl; lia.
Qed.

(** Over any sequence of [__anext__] and [__aexit__] calls,
    [update_count] grows by the number of calls that returned an update:
    calls that raise (end of stream, upstream failure, closed stream) and
    [__aexit__] leave it alone. *)
Theorem update_count_counts_returned_updates cs : forall s w,
  update_count (run_calls (with_world __anext__) __aexit__ cs s w).1.2 =
    update_count s +
    returned (run_calls (with_world __anext__) __aexit__ cs s w).1.1.
Proof.
  unfold update_count.
  induction cs as [|[|exc] cs IH]; intros s w; cbn [run_calls].
  - simpl. lia.
  - pose proof (dev_anext_counts s) as Hc.
    replace (with_world __anext__ s w)
      with ((__anext__ s).1, (__anext__ s).2, w)
      by (unfold with_world; by destruct (__anext__ s)).
    destruct (__anext__ s) as [r s1]. specialize (IH s1 w).
    cbn [fst snd] in *.
    destruct (run_calls (with_world __anext__) __aexit__ cs s1 w)
      as [[obs s2] w2].
    simpl in *. rewrite IH, Hc. destruct r; lia.
  - specialize (IH (__aexit__ s exc).2 w).
    destruct (__aexit__ s exc) as [b s1] eqn:Hex. cbn [snd] in IH.
    destruct (run_calls (with_world __anext__) __aexit__ cs s1 w)
      as [[obs s2] w2].
    simpl in *. rewrite IH.
    assert (_update_count s1 = _update_count s)
      by (destruct s; injection Hex as _ <-; done).
    lia.
Qed.

End DeviceStateStreamCalls.

(** ** [Frame.to_numpy]: the buffer must fit *)

(** With numpy, a recognized format, pixel data, non-negative sides and
    an array that is not too big for numpy ([bytes_per_sample] times the
    sides that are not zero is at most 2^63 - 1), [to_numpy] returns an
    array exactly when the buffer holds
    [width * height * bytes_per_sample] bytes; for any other length it
    raises [ValueError] (from [np.frombuffer] when the length is not a
    multiple of the sample size, from [reshape] otherwise). *)
Theorem to_numpy_succeeds_iff_the_buffer_fits (f : Frame.t) data bps :
  Frame.pixel_data f = Some data ->
  Frame.bytes_per_sample (Frame.pixel_format f) = Some bps ->
  0 <= Frame.width f -> 0 <= Frame.height f ->
  np.array_bytes bps [Frame.height f; Frame.width f] <= np.intp_max ->
  ((exists arr, Frame.to_numpy true f = Return arr) <->
   Z.of_nat (length data) = Frame.width f * Frame.height f * bps) /\
  (Z.of_nat (length data) <> Frame.width f * Frame.height f * bps ->
   exists msg, Frame.to_numpy true f = Raise (ValueError msg)).
Proof.
  intros Hdata Hfmt Hw Hh Hbig.
  destruct (to_numpy_steps f data bps Hdata Hfmt) as (dtype & Hsize & ->).
  pose proof (itemsize_pos dtype) as Hpos. rewrite Hsize in Hpos.
  unfold np.frombuffer. rewrite Hsize.
  set (n := Z.of_nat (length data)).
  destruct (Z.eqb_spec (n mod bps) 0) as [Hmod|Hmod]; cbn [mbind result_bind].
  - rewrite reshape_nonneg by (cbn [np.dtype_of]; rewrite ?Hsize; done).
    unfold np.size. cbn [np.shape np.dtype_of np.buffer fold_right].
    assert (Hn : n = n / bps * bps).
    { rewrite (Z.div_mod n bps) at 1 by lia. lia. }
    destruct (Z.eqb_spec (Frame.height f * Frame.width f) (n / bps * 1))
      as [Heq|Hne].
    + split; [split; [intros _|eauto]|intros Hlen; exfalso]; nia.
    + split; [split; [intros [arr [=]]|intros Hlen; exfalso]|
              unfold np.size_mismatch; eauto].
      apply Hne. rewrite Hlen. rewrite Z.div_mul by lia. lia.
  - split; [split; [intros [arr [=]]|intros Hlen; exfalso]|eauto].
    apply Hmod. rewrite Hlen. apply Z.mod_mul. lia.
Qed.

(** ** The other control calls *)

Section ControlCallFacts.
Context {S : Type} {calls : DaqClientControl.ControlCalls S}.
Import DaqClientControl.

(** [start_script] makes one [StartScript] call for the given script id
    and returns the response's execution id exactly when [started] is
    true. When [started] is false it raises [RuntimeError] with the fixed
    text [Start failed (started=False)]: the response carries no reason
    and none is reported. A [grpc.RpcError] becomes a [RuntimeError]
    with the error's details; any other exception passes through. *)
Theorem start_script_result (self : DaqClient.t S) script_id :
  let reply :=
    StartScript (DaqClient.stub self) (mkStartRequest script_id) in
  let out := start_script self script_id in
  out.2 = after_call reply.2 self /\
  out.1 =
    match reply.1 with
    | Return response =>
        if started response then Return (start_execution_id response)
        else Raise (RuntimeError "Start failed (started=False)")
    | Raise (RpcError details) =>
        Raise (RuntimeError ("gRPC error during start: " +:+ details))
    | Raise e => Raise e
    end.
Proof.
  simpl. unfold start_script.
  destruct (StartScript _ _) as [[response|e] stub']; simpl.
  - by destruct (started response).
  - by destruct e.
Qed.

(** [stop_script] and [get_status] raise only when the call itself fails.
    [stop_script] returns the response's flag, also when it is false (a
    stop that did not take place is a return value, not an exception);
    [get_status] returns a dictionary with exactly the five keys
    [execution_id], [state], [error], [start_time], [end_time], whatever
    the state is and whether or not there is an error message. *)
Theorem stop_and_status_report_in_the_result (self : DaqClient.t S) id :
  (forall response stub',
     StopScript (DaqClient.stub self) (mkStopRequest id) =
       (Return response, stub') ->
     stop_script self id = (Return (stopped response), after_call stub' self)) /\
  (forall response stub',
     GetScriptStatus (DaqClient.stub self) (mkScriptStatusRequest id) =
       (Return response, stub') ->
     exists d,
       get_status self id = (Return d, after_call stub' self) /\
       dom d =
         ({["execution_id"; "state"; "error"; "start_time"; "end_time"]}
            : gset string) /\
       d !! "execution_id" = Some (DaqClient.VStr (execution_id response)) /\
       d !! "state" = Some (DaqClient.VInt (state response)) /\
       d !! "error" = Some (DaqClient.VStr (error_message response)) /\
       d !! "start_time" = Some (DaqClient.VInt (start_time_ns response)) /\
       d !! "end_time" = Some (DaqClient.VInt (end_time_ns response))) /\
  (forall details stub',
     (StopScript (DaqClient.stub self) (mkStopRequest id) =
        (Raise (RpcError details), stub') ->
      stop_script self id =
        (Raise (RuntimeError ("gRPC error stopping script: " +:+ details)),
         after_call stub' self)) /\
     (GetScriptStatus (DaqClient.stub self) (mkScriptStatusRequest id) =
        (Raise (RpcError details), stub') ->
      get_status self id =
        (Raise (RuntimeError ("gRPC error getting status: " +:+ details)),
         after_call stub' self))).
Proof.
  split; [|split].
  - intros response stub' Hcall. unfold stop_script. by rewrite Hcall.
  - intros response stub' Hcall. unfold get_status. rewrite Hcall.
    eexists. split; [done|].
    split; [rewrite !dom_insert_L, dom_singleton_L; set_solver|].
    repeat split; by simplify_map_eq.
  - intros details stub'. split; intros Hcall.
    + unfold stop_script. by rewrite Hcall.
    + unfold get_status. by rewrite Hcall.
Qed.

End ControlCallFacts.

(** ** The generators of [DaqClient] *)

Section GeneratorFacts.
Context {S IS IM : Type}.
Context {stub_class : daq_pb2_grpc.ControlServiceStub S IS IM}.
Context {status_iterator : Iterator IS daq_pb2.SystemStatus}.
Context {measurement_iterator : Iterator IM daq_pb2.DataPoint}.

Import daq_pb2 daq_pb2_grpc DaqClient.

(** The generators read one response per event and no more: a consumer
    that takes [n >= 1] events and stops (as the demo does after five
    status updates) has received the dictionaries of the first [n]
    responses in order, and leaves the generator suspended on the response
    iterator advanced exactly [n] times, with nothing printed. *)
Theorem generators_do_not_read_ahead (self : DaqClient.t S) instrument n
    stdout :
  (forall xs it1,
     pull next (Datatypes.S n)
       (StreamStatus (stub self) mkStatusRequest) = Some (xs, it1) ->
     for_in stream_status_next (Datatypes.S n) (stream_status self) stdout =
       (map status_dict xs, StillRunning, Suspended it1, stdout)) /\
  (forall xs it1,
     pull next (Datatypes.S n)
       (StreamMeasurements (stub self) (mkMeasurementRequest instrument)) =
       Some (xs, it1) ->
     for_in (stream_measurements_next instrument) (Datatypes.S n)
       (stream_measurements self instrument) stdout =
       (map measurement_dict xs, StillRunning, Suspended it1, stdout)).
Proof.
  split; intros xs it1 Hp.
  - rewrite status_start. by apply status_prefix.
  - rewrite measurement_start. by apply measurement_prefix.
Qed.

Lemma status_end (it : IS) e fuel stdout :
  (next it).1 = Raise e ->
  for_in stream_status_next (Datatypes.S fuel) (Suspended it) stdout =
    ([], ending e, Done, stdout ++ logged "Stream error: " e).
Proof.
  intros He. simpl. unfold stream_status_loop.
  destruct (next it) as [r it2]. simpl in He. subst r. unfold ending.
  destruct e; simpl; by rewrite ?app_nil_r.
Qed.

Lemma measurement_end instrument (it : IM) e fuel stdout :
  (next it).1 = Raise e ->
  for_in (stream_measurements_next instrument) (Datatypes.S fuel)
    (Suspended it) stdout =
    ([], ending e, Done, stdout ++ logged "Measurement stream error: " e).
Proof.
  intros He. simpl. unfold stream_measurements_loop.
  destruct (next it) as [r it2]. simpl in He. subst r. unfold ending.
  destruct e; simpl; by rewrite ?app_nil_r.
Qed.

(** Only [grpc.RpcError] is swallowed. When the response iterator raises
    [e] after the events [xs], the consumer has received the dictionaries
    of [xs], and then: for the end of the stream and for [grpc.RpcError]
    the iteration ends normally; for any other exception the iteration is
    left by that exception, and nothing is printed. In every case the
    generator is finished afterwards. *)
Theorem only_rpc_errors_end_the_stream_silently (self : DaqClient.t S)
    instrument n fuel stdout e :
  (n < fuel)%nat ->
  (forall xs it1,
     pull next n (StreamStatus (stub self) mkStatusRequest) = Some (xs, it1) ->
     (next it1).1 = Raise e ->
     for_in stream_status_next fuel (stream_status self) stdout =
       (map status_dict xs, ending e, Done,
        stdout ++ logged "Stream error: " e)) /\
  (forall xs it1,
     pull next n
       (StreamMeasurements (stub self) (mkMeasurementRequest instrument)) =
       Some (xs, it1) ->
     (next it1).1 = Raise e ->
     for_in (stream_measurements_next instrument) fuel
       (stream_measurements self instrument) stdout =
       (map measurement_dict xs, ending e, Done,
        stdout ++ logged "Measurement stream error: " e)).
Proof.
  intros Hf. destruct fuel as [|fuel]; [lia|].
  replace (Datatypes.S fuel) with (n + Datatypes.S (fuel - n))%nat by lia.
  split; intros xs it1 Hp He.
  - replace (n + Datatypes.S (fuel - n))%nat with (Datatypes.S (n + (fuel - n)))
      by lia.
    rewrite status_start.
    replace (Datatypes.S (n + (fuel - n))) with (n + Datatypes.S (fuel - n))%nat
      by lia.
    rewrite (for_in_continue _ n _ _ _ _ _ _ (status_prefix n _ _ _ stdout Hp)).
    rewrite (status_end it1 e (fuel - n) stdout He). by rewrite app_nil_r.
  - replace (n + Datatypes.S (fuel - n))%nat with (Datatypes.S (n + (fuel - n)))
      by lia.
    rewrite measurement_start.
    replace (Datatypes.S (n + (fuel - n))) with (n + Datatypes.S (fuel - n))%nat
      by lia.
    rewrite (for_in_continue _ n _ _ _ _ _ _
               (measurement_prefix instrument n _ _ _ stdout Hp)).
    rewrite (measurement_end instrument it1 e (fuel - n) stdout He).
    by rewrite app_nil_r.
Qed.

End GeneratorFacts.

(** Every dictionary that [stream_measurements] builds has the same four
    keys, whatever the payload: a consumer can read [instrument],
    [timestamp], [value] and [image] of any of them, and finds nothing
    else. *)
Theorem measurement_dict_keys (data_point : daq_pb2.DataPoint) :
  dom (DaqClient.measurement_dict data_point) =
    ({["instrument"; "timestamp"; "value"; "image"]} : gset string) /\
  DaqClient.measurement_dict data_point !! "instrument" =
    Some (DaqClient.VStr (daq_pb2.instrument data_point)) /\
  DaqClient.measurement_dict data_point !! "timestamp" =
    Some (DaqClient.VInt (daq_pb2.timestamp_ns data_point)).
Proof.
  destruct data_point as [i ts [|x|b]];
    unfold DaqClient.measurement_dict, daq_pb2.HasField; simpl;
    (split; [rewrite !dom_insert_L, dom_singleton_L; set_solver|]);
    split; by simplify_map_eq.
Qed.

(** ** Worked instances *)

Lemma max_frames_positive_cap_witness :
  exists u',
    let s := FrameStream.__init__ Samples.daemon "camera_0" true (Some 2) None in
    let closed :=
      FrameStream.advanced 2 [Return (Frame.to_raw (Samples.frame 3))]
        (FrameStream.__aenter__ s) in
    async_for FrameStream.__anext__ Samples.skip (Z.to_nat 2 + 1)
      (FrameStream.__aenter__ s) (World ([] : list Z) []) =
      (Finished, closed,
       World u'
         ([] ++ paired_trace (FrameStream._on_frame s)
                  [Samples.frame 1; Samples.frame 2])) /\
    delivered
      (paired_trace (FrameStream._on_frame s)
         [Samples.frame 1; Samples.frame 2]) =
      [Samples.frame 1; Samples.frame 2] /\
    Z.of_nat (length [Samples.frame 1; Samples.frame 2]) = 2 /\
    forall w', FrameStream.__anext__ closed w' =
               (Raise StopAsyncIteration, closed, w').
Proof.
  refine (max_frames_positive_cap Samples.skip 2 0
            (FrameStream.__init__ Samples.daemon "camera_0" true (Some 2) None)
            (World [] [])
            [Frame.to_raw (Samples.frame 1); Frame.to_raw (Samples.frame 2)]
            [Return (Frame.to_raw (Samples.frame 3))]
            [Samples.frame 1; Samples.frame 2] _ eq_refl _ eq_refl _).
  - lia.
  - intros cb Hcb. discriminate Hcb.
  - repeat constructor.
Defined.

Lemma frame_count_witness :
  FrameStream.frame_count
    (run_calls FrameStream.__anext__ FrameStream.__aexit__
       [CallNext; CallNext; CallNext; CallExit None; CallNext]
       (MoreSamples.stream_of MoreSamples.flaky None
          (Some Samples.note_number)) (World [] [])).1.2 =
  FrameStream.frame_count
    (MoreSamples.stream_of MoreSamples.flaky None (Some Samples.note_number)) +
  returned
    (run_calls FrameStream.__anext__ FrameStream.__aexit__
       [CallNext; CallNext; CallNext; CallExit None; CallNext]
       (MoreSamples.stream_of MoreSamples.flaky None
          (Some Samples.note_number)) (World [] [])).1.1.
Proof.
  refine (frame_count_counts_returned_frames
            [CallNext; CallNext; CallNext; CallExit None; CallNext]
            (MoreSamples.stream_of MoreSamples.flaky None
               (Some Samples.note_number)) (World [] []) _).
  intros cb [= <-] _ e u. reflexivity.
Defined.

(** The calls of the witness: a frame, the failure, a frame, the close. *)
Example flaky_calls :
  (run_calls FrameStream.__anext__ FrameStream.__aexit__
     [CallNext; CallNext; CallNext; CallExit None; CallNext]
     (MoreSamples.stream_of MoreSamples.flaky None (Some Samples.note_number))
     (World [] [])).1.1 =
  [Got (Return (Samples.frame 1)); Got (Raise (RpcError "deadline exceeded"));
   Got (Return (Samples.frame 2)); Exited false;
   Got (Raise StopAsyncIteration)].
Proof. reflexivity. Qed.

Lemma negative_cap_witness :
  async_for FrameStream.__anext__ Samples.skip 5
    (Samples.camera_stream (Some (-1)) (Some Samples.note_number))
    (World [] []) =
    (Finished, Samples.camera_stream (Some (-1)) (Some Samples.note_number),
     World [] []).
Proof.
  refine (negative_cap_stops_at_once Samples.skip
            (FrameStream.__init__ Samples.daemon "camera_0" true (Some (-1))
               (Some Samples.note_number))
            (World [] []) (-1) 4 eq_refl _).
  lia.
Defined.

Lemma incomplete_frame_witness :
  let s :=
    FrameStream.advanced 1
      [Return MoreSamples.clipped; Return (Frame.to_raw (Samples.frame 3))]
      (MoreSamples.stream_of MoreSamples.sloppy None
         (Some Samples.note_number)) in
  let s' :=
    FrameStream.advanced 0 [Return (Frame.to_raw (Samples.frame 3))] s in
  FrameStream.__anext__ s (World [1] []) =
    (Raise (KeyError "height"), s', World [1] []) /\
  FrameStream.is_active s' = true /\
  FrameStream.frame_count s' = FrameStream.frame_count s.
Proof.
  exact (incomplete_frame_raises_key_error
           (FrameStream.advanced 1
              [Return MoreSamples.clipped;
               Return (Frame.to_raw (Samples.frame 3))]
              (MoreSamples.stream_of MoreSamples.sloppy None
                 (Some Samples.note_number)))
           (World [1] [])
           [Return MoreSamples.clipped; Return (Frame.to_raw (Samples.frame 3))]
           [Return (Frame.to_raw (Samples.frame 3))]
           MoreSamples.clipped "height" ["pixel_format"]
           eq_refl eq_refl eq_refl eq_refl eq_refl).
Defined.

Lemma exhausted_stream_witness :
  exists s1,
    let s :=
      FrameStream.advanced 3 [] (Samples.camera_stream None None) in
    FrameStream.__anext__ s (World [] []) =
      (Raise StopAsyncIteration, s1, World [] []) /\
    FrameStream.is_active s1 = false /\
    FrameStream.frame_count s1 = FrameStream.frame_count s /\
    FrameStream._iterator s1 = Some [] /\
    (run_calls FrameStream.__anext__ FrameStream.__aexit__
       [CallNext; CallNext] s1 (World [] [])).1.1 =
      map closed_answer [CallNext; CallNext] /\
    (run_calls FrameStream.__anext__ FrameStream.__aexit__
       [CallNext; CallNext] s1 (World [] [])).2 = World [] [] /\
    (FrameStream._iterator
       (run_calls FrameStream.__anext__ FrameStream.__aexit__
          [CallNext; CallNext] s1 (World [] [])).1.2 = Some [] \/
     FrameStream._iterator
       (run_calls FrameStream.__anext__ FrameStream.__aexit__
          [CallNext; CallNext] s1 (World [] [])).1.2 = None).
Proof.
  exact (exhausted_stream_is_never_asked_again
           (FrameStream.advanced 3 [] (Samples.camera_stream None None))
           (World [] []) [] [] [CallNext; CallNext]
           eq_refl eq_refl eq_refl eq_refl).
Defined.

Lemma upstream_failure_witness :
  exists u',
    let s := MoreSamples.stream_of MoreSamples.flaky None None in
    async_for FrameStream.__anext__ Samples.skip (1 + 3) s (World [] []) =
      (Propagated (RpcError "deadline exceeded"),
       FrameStream.advanced 1 [Return (Frame.to_raw (Samples.frame 2))] s,
       World u' ([] ++ paired_trace (FrameStream._on_frame s)
                         [Samples.frame 1])) /\
    FrameStream.is_active
      (FrameStream.advanced 1 [Return (Frame.to_raw (Samples.frame 2))] s) =
      true /\
    FrameStream._iterator
      (FrameStream.advanced 1 [Return (Frame.to_raw (Samples.frame 2))] s) =
      Some [Return (Frame.to_raw (Samples.frame 2))].
Proof.
  refine (upstream_failure_reaches_the_caller Samples.skip 1 2
            (MoreSamples.stream_of MoreSamples.flaky None None) (World [] [])
            (Samples.frames MoreSamples.flaky)
            [Raise (RpcError "deadline exceeded");
             Return (Frame.to_raw (Samples.frame 2))]
            [Return (Frame.to_raw (Samples.frame 2))]
            [Frame.to_raw (Samples.frame 1)] [Samples.frame 1]
            (RpcError "deadline exceeded")
            eq_refl eq_refl _ _ eq_refl _ eq_refl eq_refl).
  - intros cb Hcb. discriminate Hcb.
  - exact I.
  - repeat constructor.
Defined.

(** A [StopIteration] from the upstream iterator reaches the loop as a
    [RuntimeError]. *)
Example upstream_stop_iteration :
  let '(r, s', w') :=
    async_for FrameStream.__anext__ Samples.skip 5
      (MoreSamples.stream_of MoreSamples.stale None None) (World [] []) in
  r = Propagated (RuntimeError "coroutine raised StopIteration") /\
  delivered (trace w') = [Samples.frame 1] /\
  FrameStream.is_active s' = true.
Proof. vm_compute. by repeat split. Qed.

Lemma to_numpy_fit_witness :
  ((exists arr, Frame.to_numpy true MoreSamples.short_frame = Return arr) <->
   Z.of_nat (length [x01; x02; x03; x04; x05; x06; x07]) = 2 * 2 * 2) /\
  (Z.of_nat (length [x01; x02; x03; x04; x05; x06; x07]) <> 2 * 2 * 2 ->
   exists msg,
     Frame.to_numpy true MoreSamples.short_frame = Raise (ValueError msg)).
Proof.
  refine (to_numpy_succeeds_iff_the_buffer_fits MoreSamples.short_frame
            [x01; x02; x03; x04; x05; x06; x07] 2 eq_refl eq_refl _ _ _);
    vm_compute; discriminate.
Defined.

(** The short frame is rejected by [np.frombuffer]. *)
Example short_frame_is_rejected :
  Frame.to_numpy true MoreSamples.short_frame =
    Raise (ValueError "buffer size must be a multiple of element size").
Proof. reflexivity. Qed.

Lemma stop_and_status_witness :
  DaqClientControl.stop_script
    (MoreSamples.control_client MoreSamples.refusing) "exec-1" =
    (Return false,
     DaqClientControl.after_call (MoreSamples.called MoreSamples.refusing)
       (MoreSamples.control_client MoreSamples.refusing)).
Proof.
  exact (proj1 (stop_and_status_report_in_the_result
                  (MoreSamples.control_client MoreSamples.refusing) "exec-1")
           (DaqClientControl.mkStopResponse false)
           (MoreSamples.called MoreSamples.refusing) eq_refl).
Defined.

(** The refused start and the status of the failed execution. *)
Example refused_start :
  (DaqClientControl.start_script
     (MoreSamples.control_client MoreSamples.refusing) "script-1").1 =
    Raise (RuntimeError "Start failed (started=False)") /\
  (d ← (DaqClientControl.get_status
          (MoreSamples.control_client MoreSamples.refusing) "exec-1").1;
   mret (d !! "state", d !! "error")) =
    Return (Some (DaqClient.VInt 3),
            Some (DaqClient.VStr "stage fault")).
Proof. split; reflexivity. Qed.

Lemma generators_witness :
  for_in DaqClient.stream_status_next 2
    (DaqClient.stream_status (Samples.client_of Samples.broken)) [] =
    (map DaqClient.status_dict [Samples.status 1; Samples.status 2],
     StillRunning,
     DaqClient.Suspended [Raise (RpcError "connection reset")], []).
Proof.
  exact (proj1 (generators_do_not_read_ahead
                  (Samples.client_of Samples.broken) "stage" 1 [])
           [Samples.status 1; Samples.status 2]
           [Raise (RpcError "connection reset")] eq_refl).
Defined.

Lemma only_rpc_errors_witness :
  for_in DaqClient.stream_status_next 5
    (DaqClient.stream_status (Samples.client_of MoreSamples.crashing)) [] =
    (map DaqClient.status_dict [Samples.status 1],
     ending (ValueError "bad payload"), DaqClient.Done,
     [] ++ DaqClient.logged "Stream error: " (ValueError "bad payload")).
Proof.
  refine (proj1 (only_rpc_errors_end_the_stream_silently
                   (Samples.client_of MoreSamples.crashing) "stage" 1 5 []
                   (ValueError "bad payload") _)
            [Samples.status 1]
            [Raise (ValueError "bad payload"); Return (Samples.status 2)]
            eq_refl eq_refl).
  lia.
Defined.

(** The crash leaves the loop as an exception, with nothing printed. *)
Example crashing_stream :
  DaqClient.caller_view
    (for_in DaqClient.stream_status_next 5
       (DaqClient.stream_status (Samples.client_of MoreSamples.crashing)) []) =
    ([DaqClient.status_dict (Samples.status 1)],
     Propagated (ValueError "bad payload")) /\
  DaqClient.printed
    (for_in DaqClient.stream_status_next 5
       (DaqClient.stream_status (Samples.client_of MoreSamples.crashing)) []) =
    [].
Proof. split; vm_compute; reflexivity. Qed.
